(** * Transpiler-gui: the translation entry point of [main.py]

    [main.py] imports [PythonToJavaScriptTranspiler] from a package
    [transpiler]; when the import fails it defines the class itself, with one
    method [transpile(self, code)] that works line by line.  That method is
    the only translation code of the repository, and it is what this file
    embeds: Python strings as lists of code points, the [for] loop over the
    lines as a fold that threads the list [js_lines], and every operation
    that can raise in Python ([parts[1]], the unpacking of
    [func_match.groups()]) as a computation in an error monad. *)

From Stdlib Require Import List NArith ZArith Bool Ascii String Lia.
Import ListNotations.

Local Open Scope N_scope.

(** ** Python strings *)

(** A Python [str] is a sequence of Unicode code points. *)
Definition char := N.
Definition pystr := list char.

(** Literals of the source are written as Rocq strings and read through
    [py]; every literal of [transpile] is ASCII. *)
Definition py (s : string) : pystr := map N_of_ascii (list_ascii_of_string s).

Definition nl : char := 10.
Definition dquote : char := 34.

(** [Py_UNICODE_ISSPACE]: what [str.strip()] removes and what [\s] matches
    in a [str] pattern. *)
Definition isspace (c : char) : bool :=
  ((9 <=? c) && (c <=? 13)) || ((28 <=? c) && (c <=? 32))
  || (c =? 133) || (c =? 160) || (c =? 5760)
  || ((8192 <=? c) && (c <=? 8202))
  || (c =? 8232) || (c =? 8233) || (c =? 8239) || (c =? 8287) || (c =? 12288).

Definition ascii_isalnum (c : char) : bool :=
  ((48 <=? c) && (c <=? 57)) || ((65 <=? c) && (c <=? 90))
  || ((97 <=? c) && (c <=? 122)).

Fixpoint lstrip (s : pystr) : pystr :=
  match s with
  | c :: s' => if isspace c then lstrip s' else s
  | [] => []
  end.

Definition rstrip (s : pystr) : pystr := rev (lstrip (rev s)).

(** [s.strip()] *)
Definition strip (s : pystr) : pystr := rstrip (lstrip s).

(** [s.split(sep)] for a separator of one character: never an empty list. *)
Fixpoint split (sep : char) (s : pystr) : list pystr :=
  match s with
  | [] => [[]]
  | c :: s' =>
      if c =? sep then [] :: split sep s'
      else match split sep s' with
           | l :: ls => (c :: l) :: ls
           | [] => [[c]]
           end
  end.

(** [s.split(sep, maxsplit)] *)
Fixpoint splitn (sep : char) (maxsplit : nat) (s : pystr) : list pystr :=
  match s with
  | [] => [[]]
  | c :: s' =>
      match maxsplit with
      | O => [s]
      | S m =>
          if c =? sep then [] :: splitn sep m s'
          else match splitn sep maxsplit s' with
               | l :: ls => (c :: l) :: ls
               | [] => [[c]]
               end
      end
  end.

(** [s.startswith(prefix)] *)
Fixpoint startswith (s prefix : pystr) {struct prefix} : bool :=
  match prefix, s with
  | [], _ => true
  | p :: ps, c :: cs => (c =? p) && startswith cs ps
  | _ :: _, [] => false
  end.

(** [sub in s] *)
Fixpoint contains (sub s : pystr) : bool :=
  startswith s sub
  || match s with
     | [] => false
     | _ :: s' => contains sub s'
     end.

(** [a == b] on strings *)
Fixpoint str_eqb (a b : pystr) : bool :=
  match a, b with
  | [], [] => true
  | x :: a', y :: b' => (x =? y) && str_eqb a' b'
  | _, _ => false
  end.

(** A slice bound: negative counts from the end, then clamped to the string. *)
Definition slice_bound (len i : Z) : Z :=
  Z.max 0 (Z.min len (if (i <? 0)%Z then (i + len)%Z else i)).

(** [s[start:stop]] *)
Definition slice (s : pystr) (start stop : Z) : pystr :=
  let len := Z.of_nat (List.length s) in
  let lo := slice_bound len start in
  let hi := slice_bound len stop in
  firstn (Z.to_nat (hi - lo)) (skipn (Z.to_nat lo) s).

(** [s[start:]] *)
Definition slice_from (s : pystr) (start : Z) : pystr :=
  skipn (Z.to_nat (slice_bound (Z.of_nat (List.length s)) start)) s.

(** [sep.join(l)] *)
Fixpoint join (sep : pystr) (l : list pystr) : pystr :=
  match l with
  | [] => []
  | [x] => x
  | x :: rest => x ++ sep ++ join sep rest
  end.

(** ** Exceptions *)

(** [TranspilerError] is the class the module declares next to the
    transpiler; the others are the built-in exceptions the operations of
    [transpile] can raise. *)
Inductive exn : Type :=
| TranspilerError (message : pystr)
| IndexError
| ValueError.

Inductive outcome (A : Type) : Type :=
| Returned (a : A)
| Raised (e : exn).
Arguments Returned {A} a.
Arguments Raised {A} e.

Definition bind {A B : Type} (m : outcome A) (f : A -> outcome B) : outcome B :=
  match m with
  | Returned a => f a
  | Raised e => Raised e
  end.

Notation "x <- m ;; k" := (bind m (fun x => k))
  (at level 61, m at next level, right associativity).

(** [l[i]] *)
Definition index {A : Type} (l : list A) (i : nat) : outcome A :=
  match nth_error l i with
  | Some a => Returned a
  | None => Raised IndexError
  end.

(** [for x in xs: body], the body threading the state [st]. *)
Fixpoint for_each {A S : Type} (xs : list A) (body : S -> A -> outcome S)
  (st : S) : outcome S :=
  match xs with
  | [] => Returned st
  | x :: xs' => st' <- body st x ;; for_each xs' body st'
  end.

(** ** Regular expressions *)

(** The fragment of [re] the pattern of [transpile] is written in:
    characters, greedy [+] and [*] over a character class, concatenation and
    capturing groups. *)
Inductive regex : Type :=
| Chr (c : char)
| Plus (cls : char -> bool)
| Star (cls : char -> bool)
| Cat (r1 r2 : regex)
| Grp (r : regex).

Section Matcher.
Context {A : Type}.

(** Greedy [cls*] by backtracking: take a character when one is there,
    give it back when the rest of the pattern fails. *)
Fixpoint star (cls : char -> bool) (k : pystr -> option A) (s : pystr)
  : option A :=
  match s with
  | c :: s' =>
      if cls c then
        match star cls k s' with
        | Some a => Some a
        | None => k s
        end
      else k s
  | [] => k s
  end.

(** [rmatch r s caps k]: match [r] at the head of [s], then go on with
    [k] on what is left; [caps] are the groups closed so far. *)
Fixpoint rmatch (r : regex) (s : pystr) (caps : list pystr)
  (k : pystr -> list pystr -> option A) : option A :=
  match r with
  | Chr c =>
      match s with
      | x :: s' => if x =? c then k s' caps else None
      | [] => None
      end
  | Plus cls =>
      match s with
      | x :: s' => if cls x then star cls (fun s1 => k s1 caps) s' else None
      | [] => None
      end
  | Star cls => star cls (fun s1 => k s1 caps) s
  | Cat r1 r2 => rmatch r1 s caps (fun s1 caps1 => rmatch r2 s1 caps1 k)
  | Grp r1 =>
      rmatch r1 s caps
        (fun s1 caps1 =>
           k s1 (caps1 ++ [firstn (List.length s - List.length s1) s]))
  end.
End Matcher.

(** [re.match(r, s).groups()], or [None]: the match is anchored at the start
    of [s] and need not reach its end. *)
Definition re_match (r : regex) (s : pystr) : option (list pystr) :=
  rmatch r s [] (fun _ caps => Some caps).

Fixpoint lit (s : pystr) (r : regex) : regex :=
  match s with
  | [] => r
  | c :: s' => Cat (Chr c) (lit s' r)
  end.

Fixpoint ngroups (r : regex) : nat :=
  match r with
  | Cat r1 r2 => (ngroups r1 + ngroups r2)%nat
  | Grp r1 => S (ngroups r1)
  | _ => O
  end.

(** ** The transpiler *)

Section Transpiler.

(** [Py_UNICODE_ISALNUM] above ASCII is a table of the Unicode database of
    the interpreter, not of this repository: it is left open. *)
Variable unicode_isalnum : char -> bool.

(** [\w] in a [str] pattern: alphanumeric or underscore. *)
Definition isword (c : char) : bool :=
  (c =? 95) || (if c <? 128 then ascii_isalnum c else unicode_isalnum c).

Definition not_rparen (c : char) : bool := negb (c =? 41).

(** The pattern of the [def] branch: [def], [\s+], group 1 [\w+], [\s*],
    an opening parenthesis, group 2 (any run of characters other than the
    closing parenthesis), the closing parenthesis, [\s*], a colon. *)
Definition def_pattern : regex :=
  lit (py "def")
    (Cat (Plus isspace)
    (Cat (Grp (Plus isword))
    (Cat (Star isspace)
    (Cat (Chr 40)
    (Cat (Grp (Star not_rparen))
    (Cat (Chr 41)
    (Cat (Star isspace)
         (Chr 58)))))))).

(** The chain of [if]/[elif] of the loop body, on the stripped line. *)
Definition classify (js_lines : list pystr) (line : pystr)
  : outcome (list pystr) :=
  if startswith line (py "def ") then
    match re_match def_pattern line with
    | Some groups =>
        match groups with
        | [func_name; params] =>
            Returned (js_lines ++
              [py "function " ++ func_name ++ py "(" ++ params ++ py ") {"])
        | _ => Raised ValueError
        end
    | None => Returned js_lines
    end
  else if startswith line (py "return ") then
    let value := slice_from line 7 in
    Returned (js_lines ++ [py "    return " ++ value ++ py ";"])
  else if startswith line (py "print(") then
    let args := slice line 6 (-1) in
    Returned (js_lines ++ [py "console.log(" ++ args ++ py ");"])
  else if contains (py "=") line
          && negb (startswith line (py "if"))
          && negb (startswith line (py "while")) then
    if contains (py "+=") line then
      Returned (js_lines ++ [line ++ py ";"])
    else
      let parts := splitn 61 1 line in
      p0 <- index parts 0 ;;
      p1 <- index parts 1 ;;
      Returned (js_lines ++
        [py "let " ++ strip p0 ++ py " = " ++ strip p1 ++ py ";"])
  else if startswith line (py "if ") then
    let condition := slice line 3 (-1) in
    Returned (js_lines ++ [py "if (" ++ condition ++ py ") {"])
  else if str_eqb line (py "else:") then
    Returned (js_lines ++ [py "} else {"])
  else if startswith line (py "for ") then
    Returned (js_lines ++ [py "// " ++ line])
  else if startswith line (py "while ") then
    let condition := slice line 6 (-1) in
    Returned (js_lines ++ [py "while (" ++ condition ++ py ") {"])
  else if negb (str_eqb line []) && negb (startswith line (py "#")) then
    Returned (js_lines ++ [line ++ py ";"])
  else if startswith line (py "#") then
    Returned (js_lines ++ [py "// " ++ slice_from line 1])
  else Returned js_lines.

(** The loop body: [line = line.strip()], then the chain. *)
Definition process_line (js_lines : list pystr) (line : pystr)
  : outcome (list pystr) :=
  classify js_lines (strip line).

(** The list [js_lines] as it is when [transpile] joins it. *)
Definition transpile_lines (code : pystr) : outcome (list pystr) :=
  let lines := split nl (strip code) in
  let js_lines := [py "// Generated JavaScript"; py ""] in
  js_lines <- for_each lines process_line js_lines ;;
  Returned (js_lines ++ [py "}"]).

(** [PythonToJavaScriptTranspiler.transpile] *)
Definition transpile (code : pystr) : outcome pystr :=
  js_lines <- transpile_lines code ;;
  Returned (join [nl] js_lines).

End Transpiler.

(** What one stripped line adds to [js_lines]. *)
Definition emitted (unicode_isalnum : char -> bool) (line : pystr)
  : list pystr :=
  match classify unicode_isalnum [] line with
  | Returned out => out
  | Raised _ => []
  end.

(** What the whole loop adds to [js_lines]. *)
Definition body_of (unicode_isalnum : char -> bool) (lines : list pystr)
  : list pystr :=
  flat_map (emitted unicode_isalnum) (map strip lines).

(** [lines] with [c] added at the end of its last line. *)
Fixpoint snoc_last (c : char) (lines : list pystr) : list pystr :=
  match lines with
  | [] => [[c]]
  | [l] => [l ++ [c]]
  | l :: rest => l :: snoc_last c rest
  end.

(** ** The call, object by object

    [transpile] builds its result in a list object: [js_lines = []]
    allocates it, every [js_lines.append(...)] changes it in place, and the
    final [join] reads it.  Here the method is embedded once more with that
    object where Python has it, in a store of list objects that outlives the
    call, beside the attributes of the transpiler instance (the class body
    declares none and no [__init__]; whatever an instance carries was put
    there by its owner). *)
Definition instance : Type := list (pystr * pystr).

(** A reference to a list object: its place in the store. *)
Definition ref : Type := nat.

Record store : Type := {
  heap : list (list pystr);
  attributes : instance
}.

(** What a reference points to. *)
Definition lookup (st : store) (r : ref) : list pystr := nth r (heap st) [].

Fixpoint replace_nth {A : Type} (n : nat) (x : A) (l : list A) : list A :=
  match l, n with
  | [], _ => []
  | _ :: l', O => x :: l'
  | y :: l', S n' => y :: replace_nth n' x l'
  end.

Definition set_cell (st : store) (r : ref) (contents : list pystr) : store :=
  {| heap := replace_nth r contents (heap st); attributes := attributes st |}.

(** A computation that reads and writes the store and may raise. *)
Definition M (A : Type) : Type := store -> outcome A * store.

Definition retM {A : Type} (a : A) : M A := fun st => (Returned a, st).

Definition raiseM {A : Type} (e : exn) : M A := fun st => (Raised e, st).

Definition liftM {A : Type} (o : outcome A) : M A := fun st => (o, st).

Definition bindM {A B : Type} (m : M A) (f : A -> M B) : M B :=
  fun st =>
    match m st with
    | (Returned a, st') => f a st'
    | (Raised e, st') => (Raised e, st')
    end.

Notation "x <~ m ;; k" := (bindM m (fun x => k))
  (at level 61, m at next level, right associativity).
Notation "m ;;; k" := (bindM m (fun _ => k))
  (at level 61, right associativity).

(** [[]]: a new list object, at the first free place. *)
Definition new_list : M ref :=
  fun st =>
    (Returned (List.length (heap st)),
     {| heap := heap st ++ [[]]; attributes := attributes st |}).

(** [l.append(x)] *)
Definition list_append (l : ref) (x : pystr) : M unit :=
  fun st => (Returned tt, set_cell st l (lookup st l ++ [x])).

(** The entries of a list object, as [join] reads them. *)
Definition read_list (l : ref) : M (list pystr) :=
  fun st => (Returned (lookup st l), st).

Fixpoint for_each_in_store {A : Type} (xs : list A) (body : A -> M unit)
  : M unit :=
  match xs with
  | [] => retM tt
  | x :: xs' => body x ;;; for_each_in_store xs' body
  end.

Section TranspilerInStore.

Variable unicode_isalnum : char -> bool.

(** The chain of the loop body, appending to the object [js_lines]. *)
Definition classify_in_store (js_lines : ref) (line : pystr) : M unit :=
  if startswith line (py "def ") then
    match re_match (def_pattern unicode_isalnum) line with
    | Some groups =>
        match groups with
        | [func_name; params] =>
            list_append js_lines
              (py "function " ++ func_name ++ py "(" ++ params ++ py ") {")
        | _ => raiseM ValueError
        end
    | None => retM tt
    end
  else if startswith line (py "return ") then
    let value := slice_from line 7 in
    list_append js_lines (py "    return " ++ value ++ py ";")
  else if startswith line (py "print(") then
    let args := slice line 6 (-1) in
    list_append js_lines (py "console.log(" ++ args ++ py ");")
  else if contains (py "=") line
          && negb (startswith line (py "if"))
          && negb (startswith line (py "while")) then
    if contains (py "+=") line then
      list_append js_lines (line ++ py ";")
    else
      let parts := splitn 61 1 line in
      p0 <~ liftM (index parts 0) ;;
      p1 <~ liftM (index parts 1) ;;
      list_append js_lines
        (py "let " ++ strip p0 ++ py " = " ++ strip p1 ++ py ";")
  else if startswith line (py "if ") then
    let condition := slice line 3 (-1) in
    list_append js_lines (py "if (" ++ condition ++ py ") {")
  else if str_eqb line (py "else:") then
    list_append js_lines (py "} else {")
  else if startswith line (py "for ") then
    list_append js_lines (py "// " ++ line)
  else if startswith line (py "while ") then
    let condition := slice line 6 (-1) in
    list_append js_lines (py "while (" ++ condition ++ py ") {")
  else if negb (str_eqb line []) && negb (startswith line (py "#")) then
    list_append js_lines (line ++ py ";")
  else if startswith line (py "#") then
    list_append js_lines (py "// " ++ slice_from line 1)
  else retM tt.

(** [PythonToJavaScriptTranspiler.transpile], statement by statement. *)
Definition transpile_in_store (code : pystr) : M pystr :=
  let lines := split nl (strip code) in
  js_lines <~ new_list ;;
  list_append js_lines (py "// Generated JavaScript") ;;;
  list_append js_lines (py "") ;;;
  for_each_in_store lines
    (fun line => classify_in_store js_lines (strip line)) ;;;
  list_append js_lines (py "}") ;;;
  contents <~ read_list js_lines ;;
  retM (join [nl] contents).

End TranspilerInStore.

(** ** Reading the output *)

Definition no_newline (c : char) : Prop := c <> nl.

(** The lines of a JavaScript text that are not line comments. *)
Definition code_lines (js : pystr) : list pystr :=
  filter (fun l => negb (startswith l (py "//"))) (split nl js).

(** A loop statement of JavaScript needs [for] or [while] in a line that is
    not a comment. *)
Definition mentions_loop (js : pystr) : bool :=
  existsb (fun l => contains (py "for") l || contains (py "while") l)
    (code_lines js).

Inductive js_mode : Type :=
| InCode
| InString (quote : char)
| InComment.

(** The depth of open braces at the end of a JavaScript text, string
    literals and line comments skipped; [None] when a closing brace closes
    nothing. *)
Fixpoint brace_scan (mode : js_mode) (depth : nat) (js : pystr) : option nat :=
  match js with
  | [] => Some depth
  | c :: js' =>
      match mode with
      | InComment => brace_scan (if c =? nl then InCode else InComment) depth js'
      | InString q => brace_scan (if c =? q then InCode else InString q) depth js'
      | InCode =>
          if c =? 123 then brace_scan InCode (S depth) js'
          else if c =? 125 then
            match depth with
            | O => None
            | S d => brace_scan InCode d js'
            end
          else if (c =? 34) || (c =? 39) then brace_scan (InString c) depth js'
          else if (c =? 47)
                  && match js' with
                     | c' :: _ => c' =? 47
                     | [] => false
                     end
          then brace_scan InComment depth js'
          else brace_scan InCode depth js'
      end
  end.

(** Every brace closed and none closed twice: what a syntactically valid
    JavaScript text cannot do without. *)
Definition braces_balanced (js : pystr) : bool :=
  match brace_scan InCode 0 js with
  | Some O => true
  | _ => false
  end.

(** The first words of the statements of Python the supported subset leaves
    out: imports, class definitions, [try]/[except]. *)
Definition unsupported_statement (line : pystr) : bool :=
  startswith line (py "import ") || startswith line (py "from ")
  || startswith line (py "class ") || startswith line (py "try:")
  || startswith line (py "except").

(** ** Sample inputs *)

Definition def_add_source : pystr :=
  py "def add(a, b):" ++ [nl] ++ py "    return a + b".

Definition def_add_indented : pystr :=
  [9] ++ py "def add(a, b):  " ++ [13; nl] ++ py "return a + b" ++ [160].


Definition for_range_source : pystr :=
  py "for i in range(3):" ++ [nl] ++ py "    print(i)".

Definition print_hi_source : pystr :=
  py "print(" ++ [dquote] ++ py "hi" ++ [dquote] ++ py ")".

Definition print_hi_output : pystr :=
  py "// Generated JavaScript" ++ [nl] ++ [nl]
  ++ py "console.log(" ++ [dquote] ++ py "hi" ++ [dquote] ++ py ");" ++ [nl]
  ++ py "}".

Definition import_source : pystr := py "import os".

Definition dict_source : pystr := py "d = {}".

Definition comment_source : pystr := py "# hi".

(** The characters of an ASCII identifier. *)
Definition ascii_word (c : char) : bool := (c =? 95) || ascii_isalnum c.

(** The tests of the chain that keep a line with [=] out of the assignment
    branch: the three branches before it, and its own two guards. *)
Definition keyword_line (line : pystr) : bool :=
  startswith line (py "def ") || startswith line (py "return ")
  || startswith line (py "print(") || startswith line (py "if")
  || startswith line (py "while").

(** ** The editor window

    Of [ModernTranspilerGUI], the attributes and the widget contents the
    methods below read and write. *)

(** [self.max_recent_files], set once in [__init__]. *)
Definition max_recent_files : nat := 10.

(** [x in l] on a list of strings *)
Definition list_contains (x : pystr) (l : list pystr) : bool :=
  existsb (fun y => str_eqb y x) l.

(** [l.remove(x)]: the first entry equal to [x] goes; [ValueError] when
    there is none. *)
Fixpoint list_remove (x : pystr) (l : list pystr) : outcome (list pystr) :=
  match l with
  | [] => Raised ValueError
  | y :: l' =>
      if str_eqb y x then Returned l'
      else l'' <- list_remove x l' ;; Returned (y :: l'')
  end.

(** [add_to_recent_files], on [self.recent_files]; the menu it redraws at
    the end is built from the list and does not change it. *)
Definition add_to_recent_files (recent_files : list pystr) (filename : pystr)
  : outcome (list pystr) :=
  recent_files <-
    (if list_contains filename recent_files
     then list_remove filename recent_files
     else Returned recent_files) ;;
  let recent_files := filename :: recent_files in
  Returned
    (if (max_recent_files <? List.length recent_files)%nat
     then firstn max_recent_files recent_files
     else recent_files).

(** [zoom_in], [zoom_out] and [reset_zoom], on [self.font_size]. *)
Definition zoom_in (font_size : Z) : Z :=
  if (font_size <? 24)%Z then (font_size + 1)%Z else font_size.

Definition zoom_out (font_size : Z) : Z :=
  if (font_size >? 8)%Z then (font_size - 1)%Z else font_size.

Definition reset_zoom (font_size : Z) : Z := 12%Z.

(** [update_font_size]: the editors take the size, the message panel takes
    [max(8, size - 2)]. *)
Definition messages_font_size (font_size : Z) : Z := Z.max 8 (font_size - 2).

Inductive zoom_command : Type :=
| ZoomIn
| ZoomOut
| ResetZoom.

Definition zoom (font_size : Z) (c : zoom_command) : Z :=
  match c with
  | ZoomIn => zoom_in font_size
  | ZoomOut => zoom_out font_size
  | ResetZoom => reset_zoom font_size
  end.

Definition not_space (c : char) : bool := negb (isspace c).

(** [s.split()]: the runs of characters that are not whitespace; [word] is
    the run being read. *)
Fixpoint words_from (word : pystr) (s : pystr) : list pystr :=
  match s with
  | [] =>
      match word with
      | [] => []
      | _ => [word]
      end
  | c :: s' =>
      if isspace c then
        match word with
        | [] => words_from [] s'
        | _ => word :: words_from [] s'
        end
      else words_from (word ++ [c]) s'
  end.

Definition split_whitespace (s : pystr) : list pystr := words_from [] s.

(** [update_statistics]: the two numbers it shows. *)
Definition char_count (content : pystr) : Z :=
  (Z.of_nat (List.length content) - 1)%Z.

Definition word_count (content : pystr) : nat :=
  List.length
    (filter (fun word => negb (str_eqb (strip word) []))
       (split_whitespace content)).

(** [s.count(c)] for one character *)
Definition count_char (c : char) (s : pystr) : nat :=
  List.length (filter (N.eqb c) s).

Fixpoint uint_codes (d : Decimal.uint) : pystr :=
  match d with
  | Decimal.Nil => []
  | Decimal.D0 d' => 48 :: uint_codes d'
  | Decimal.D1 d' => 49 :: uint_codes d'
  | Decimal.D2 d' => 50 :: uint_codes d'
  | Decimal.D3 d' => 51 :: uint_codes d'
  | Decimal.D4 d' => 52 :: uint_codes d'
  | Decimal.D5 d' => 53 :: uint_codes d'
  | Decimal.D6 d' => 54 :: uint_codes d'
  | Decimal.D7 d' => 55 :: uint_codes d'
  | Decimal.D8 d' => 56 :: uint_codes d'
  | Decimal.D9 d' => 57 :: uint_codes d'
  end.

(** [str(n)] for a natural number *)
Definition decimal (n : nat) : pystr := uint_codes (Nat.to_uint n).

(** The format [{i:>3}]: right-aligned in three columns, wider when the
    number is. *)
Definition format_width3 (i : nat) : pystr :=
  repeat 32 (3 - List.length (decimal i)) ++ decimal i.

(** [update_line_numbers]: the text it writes into the gutter, one
    [insert] per number. *)
Definition line_numbers_text (content : pystr) : pystr :=
  List.concat (map (fun i => format_width3 i ++ [nl])
            (seq 1 (count_char nl content))).

Inductive widget_state : Type :=
| NORMAL
| DISABLED.

(** The widgets [transpile_code] works on: the text of the Python editor as
    [get(1.0, tk.END)] gives it, the text and the state of the JavaScript
    panel, the pieces inserted into the message panel with their tags, and
    the texts of the two status labels. *)
Record window : Type := {
  python_editor : pystr;
  js_editor : pystr;
  js_editor_state : widget_state;
  messages_text : list (pystr * pystr);
  status_indicator : pystr;
  transpile_status_label : pystr
}.

(** [add_message]; [timestamp] is what the clock gives when it is called. *)
Definition add_message (w : window) (timestamp message msg_type : pystr)
  : window :=
  {| python_editor := python_editor w;
     js_editor := js_editor w;
     js_editor_state := js_editor_state w;
     messages_text :=
       messages_text w
       ++ [(py "[" ++ timestamp ++ py "] ", py "info");
           (message ++ [nl], msg_type)];
     status_indicator := status_indicator w;
     transpile_status_label := transpile_status_label w |}.

(** [clear_output] *)
Definition clear_output (w : window) (timestamp : pystr) : window :=
  add_message
    {| python_editor := python_editor w;
       js_editor := [];
       js_editor_state := DISABLED;
       messages_text := [];
       status_indicator := [9898] ++ py " Ready";
       transpile_status_label := py "Output cleared" |}
    timestamp ([128465; 65039] ++ py " Output cleared") (py "info").

Section TranspileCode.

Variable unicode_isalnum : char -> bool.

(** [str(e)]: the text of an exception is the interpreter's. *)
Variable exception_text : exn -> pystr.

(** [transpile_code]: the highlighting it asks for after the insert tags
    the text of the JavaScript panel and leaves the text as it is. *)
Definition transpile_code (w : window) (timestamp : pystr) (is_auto : bool)
  : window :=
  let python_code := strip (python_editor w) in
  if str_eqb python_code [] then
    let w := clear_output w timestamp in
    {| python_editor := python_editor w;
       js_editor := js_editor w;
       js_editor_state := js_editor_state w;
       messages_text := messages_text w;
       status_indicator := [9898] ++ py " Ready";
       transpile_status_label := py "No code to transpile" |}
  else
    match transpile unicode_isalnum python_code with
    | Returned js_code =>
        let mode := if is_auto then py "Auto-transpiled" else py "Transpiled" in
        let lines := List.length (split nl js_code) in
        let w :=
          add_message
            {| python_editor := python_editor w;
               js_editor := js_code;
               js_editor_state := DISABLED;
               messages_text := messages_text w;
               status_indicator := [128994] ++ py " Success";
               transpile_status_label := transpile_status_label w |}
            timestamp
            ([9989] ++ py " " ++ mode ++ py " successfully! Generated "
             ++ decimal lines ++ py " lines of JavaScript.")
            (py "success") in
        {| python_editor := python_editor w;
           js_editor := js_editor w;
           js_editor_state := js_editor_state w;
           messages_text := messages_text w;
           status_indicator := status_indicator w;
           transpile_status_label := mode ++ py " successfully" |}
    | Raised (TranspilerError message) =>
        let w :=
          add_message
            {| python_editor := python_editor w;
               js_editor := [];
               js_editor_state := DISABLED;
               messages_text := messages_text w;
               status_indicator := [128308] ++ py " Error";
               transpile_status_label := transpile_status_label w |}
            timestamp
            ([10060] ++ py " Transpilation Error: "
             ++ exception_text (TranspilerError message))
            (py "error") in
        {| python_editor := python_editor w;
           js_editor := js_editor w;
           js_editor_state := js_editor_state w;
           messages_text := messages_text w;
           status_indicator := status_indicator w;
           transpile_status_label := py "Transpilation failed" |}
    | Raised e =>
        let w :=
          add_message
            {| python_editor := python_editor w;
               js_editor := [];
               js_editor_state := DISABLED;
               messages_text := messages_text w;
               status_indicator := [128308] ++ py " Error";
               transpile_status_label := transpile_status_label w |}
            timestamp
            ([128165] ++ py " Unexpected Error: " ++ exception_text e)
            (py "error") in
        {| python_editor := python_editor w;
           js_editor := js_editor w;
           js_editor_state := js_editor_state w;
           messages_text := messages_text w;
           status_indicator := status_indicator w;
           transpile_status_label := py "Unexpected error" |}
    end.

End TranspileCode.

(** ** The model on small inputs *)

Example strip_both_ends : strip ([9] ++ py " a b " ++ [13; nl]) = py "a b".
Proof. reflexivity. Qed.

Example split_keeps_blank_lines :
  split nl (py "a" ++ [nl; nl] ++ py "b" ++ [nl]) = [py "a"; []; py "b"; []].
Proof. reflexivity. Qed.

Example splitn_stops_at_first : splitn 61 1 (py "a=b=c") = [py "a"; py "b=c"].
Proof. reflexivity. Qed.

Example slice_of_short_line : slice (py "print(") 6 (-1) = [].
Proof. reflexivity. Qed.

Example slice_drops_last : slice (py "if x > 0:") 3 (-1) = py "x > 0".
Proof. reflexivity. Qed.

Example def_pattern_spaces ua :
  re_match (def_pattern ua) (py "def  f_1 (x, y=2)  : pass")
  = Some [py "f_1"; py "x, y=2"].
Proof. vm_compute. reflexivity. Qed.

Example def_pattern_needs_colon ua :
  re_match (def_pattern ua) (py "def f(x)") = None.
Proof. vm_compute. reflexivity. Qed.

Example def_pattern_needs_parenthesis ua :
  re_match (def_pattern ua) (py "def f:") = None.
Proof. vm_compute. reflexivity. Qed.

Example split_whitespace_runs :
  split_whitespace ([9] ++ py " def  f(x): " ++ [nl] ++ py "pass" ++ [nl])
  = [py "def"; py "f(x):"; py "pass"].
Proof. reflexivity. Qed.

Example format_width3_pads : format_width3 7 = py "  7".
Proof. reflexivity. Qed.

Example format_width3_wide : format_width3 1234 = py "1234".
Proof. reflexivity. Qed.

Example line_numbers_three :
  line_numbers_text (py "a" ++ [nl] ++ py "b" ++ [nl] ++ [nl])
  = py "  1" ++ [nl] ++ py "  2" ++ [nl] ++ py "  3" ++ [nl].
Proof. reflexivity. Qed.

Example list_remove_first_only :
  list_remove (py "a") [py "b"; py "a"; py "c"; py "a"]
  = Returned [py "b"; py "c"; py "a"].
Proof. reflexivity. Qed.

Example list_remove_absent : list_remove (py "a") [py "b"] = Raised ValueError.
Proof. reflexivity. Qed.

Example call_leaves_its_list_in_the_store ua :
  transpile_in_store ua print_hi_source
    {| heap := [[py "old"]]; attributes := [(py "name", py "value")] |}
  = (Returned print_hi_output,
     {| heap :=
          [[py "old"];
           [py "// Generated JavaScript"; py "";
            py "console.log(" ++ [dquote] ++ py "hi" ++ [dquote] ++ py ");";
            py "}"]];
        attributes := [(py "name", py "value")] |}).
Proof. vm_compute. reflexivity. Qed.

Example appends_to_one_object_add_up :
  (list_append 0%nat (py "a") ;;; list_append 0%nat (py "b") ;;;
   read_list 0%nat)
    {| heap := [[py "old"]]; attributes := [] |}
  = (Returned [py "old"; py "a"; py "b"],
     {| heap := [[py "old"; py "a"; py "b"]]; attributes := [] |}).
Proof. reflexivity. Qed.

(** ** Strings: first facts *)

Ltac literal :=
  cbv; repeat constructor; discriminate.

Lemma lstrip_space c s : isspace c = true -> lstrip (c :: s) = lstrip s.
Proof. intros H. simpl. now rewrite H. Qed.

Lemma lstrip_other c s : isspace c = false -> lstrip (c :: s) = c :: s.
Proof. intros H. simpl. now rewrite H. Qed.

Lemma strip_nil : strip [] = [].
Proof. reflexivity. Qed.

Lemma strip_space_cons c s : isspace c = true -> strip (c :: s) = strip s.
Proof. intros H. unfold strip. now rewrite lstrip_space. Qed.

Lemma lstrip_snoc_space c s :
  isspace c = true ->
  lstrip (s ++ [c]) = lstrip s ++ [c] \/ (lstrip (s ++ [c]) = [] /\ lstrip s = []).
Proof.
  intros Hc. induction s as [|x s IH].
  - right. simpl. now rewrite Hc.
  - simpl. destruct (isspace x); [exact IH | now left].
Qed.

Lemma rstrip_snoc_space c s : isspace c = true -> rstrip (s ++ [c]) = rstrip s.
Proof.
  intros Hc. unfold rstrip. rewrite rev_app_distr. simpl. now rewrite Hc.
Qed.

Lemma rstrip_snoc_other c s : isspace c = false -> rstrip (s ++ [c]) = s ++ [c].
Proof.
  intros Hc. unfold rstrip. rewrite rev_app_distr. simpl. rewrite Hc.
  simpl. now rewrite rev_involutive.
Qed.

Lemma strip_snoc_space c s : isspace c = true -> strip (s ++ [c]) = strip s.
Proof.
  intros Hc. unfold strip.
  destruct (lstrip_snoc_space c s Hc) as [-> | [-> ->]].
  - now apply rstrip_snoc_space.
  - reflexivity.
Qed.

Lemma lstrip_Forall (P : char -> Prop) s : Forall P s -> Forall P (lstrip s).
Proof.
  induction 1 as [|c s Hc Hs IH]; simpl; [constructor|].
  destruct (isspace c); [exact IH | now constructor].
Qed.

Lemma strip_Forall (P : char -> Prop) s : Forall P s -> Forall P (strip s).
Proof.
  intros H. unfold strip, rstrip.
  apply Forall_rev, lstrip_Forall, Forall_rev, lstrip_Forall, H.
Qed.

Lemma firstn_Forall (P : char -> Prop) n s : Forall P s -> Forall P (firstn n s).
Proof.
  intros H. revert n. induction H; intros [|n]; simpl; auto.
Qed.

Lemma skipn_Forall (P : char -> Prop) n s : Forall P s -> Forall P (skipn n s).
Proof.
  intros H. revert n. induction H; intros [|n]; simpl; auto.
Qed.

Lemma slice_Forall (P : char -> Prop) s a b : Forall P s -> Forall P (slice s a b).
Proof. intros H. unfold slice. now apply firstn_Forall, skipn_Forall. Qed.

Lemma slice_from_Forall (P : char -> Prop) s a :
  Forall P s -> Forall P (slice_from s a).
Proof. intros H. unfold slice_from. now apply skipn_Forall. Qed.

Lemma split_not_nil sep s : split sep s <> [].
Proof.
  destruct s as [|c s]; simpl; [discriminate|].
  destruct (c =? sep); [discriminate|].
  destruct (split sep s); discriminate.
Qed.

Lemma split_cons_sep sep s : split sep (sep :: s) = [] :: split sep s.
Proof. simpl. now rewrite N.eqb_refl. Qed.

Lemma split_cons_other sep c s :
  c <> sep ->
  exists l ls, split sep s = l :: ls /\ split sep (c :: s) = (c :: l) :: ls.
Proof.
  intros Hc. simpl. apply N.eqb_neq in Hc. rewrite Hc.
  destruct (split sep s) as [|l ls] eqn:E.
  - now apply split_not_nil in E.
  - now exists l, ls.
Qed.

(** No line of [s.split(sep)] holds the separator. *)
Lemma split_lines_free sep s : Forall (Forall (fun c => c <> sep)) (split sep s).
Proof.
  induction s as [|c s IH]; simpl.
  - repeat constructor.
  - destruct (c =? sep) eqn:E.
    + constructor; [constructor | exact IH].
    + apply N.eqb_neq in E.
      destruct (split sep s) as [|l ls]; [repeat constructor; assumption|].
      inversion IH; subst. constructor; [now constructor | assumption].
Qed.

(** With [maxsplit = 1] and a separator that occurs, [split] gives the text
    before the first separator and the text after it. *)
Lemma splitn_one c s :
  contains [c] s = true ->
  exists a b, splitn c 1 s = [a; b] /\ s = a ++ c :: b.
Proof.
  induction s as [|x s IH]; simpl; [discriminate|].
  destruct (x =? c) eqn:E; simpl.
  - intros _. apply N.eqb_eq in E. subst x.
    exists [], s. split; [|reflexivity]. now destruct s.
  - intros H. destruct (IH H) as (a & b & Hs & ->).
    rewrite Hs. now exists (x :: a), b.
Qed.

(** ** The matcher: every group is cut out of the subject *)

Section MatcherFacts.
Context {A : Type} (P : char -> Prop).

Lemma star_reaches cls (k : pystr -> option A) s res :
  Forall P s -> star cls k s = Some res ->
  exists s1, Forall P s1 /\ k s1 = Some res.
Proof.
  induction 1 as [|c s Hc Hs IH]; simpl; intros H.
  - exists []. auto.
  - destruct (cls c).
    + destruct (star cls k s) as [a|] eqn:E.
      * injection H as <-. now apply IH.
      * exists (c :: s). auto.
    + exists (c :: s). auto.
Qed.

Lemma rmatch_reaches r :
  forall s caps (k : pystr -> list pystr -> option A) res,
    Forall P s -> Forall (Forall P) caps ->
    rmatch r s caps k = Some res ->
    exists s1 caps1,
      Forall P s1 /\ Forall (Forall P) caps1 /\
      List.length caps1 = (List.length caps + ngroups r)%nat /\
      k s1 caps1 = Some res.
Proof.
  induction r as [c|cls|cls|r1 IH1 r2 IH2|r1 IH1]; simpl;
    intros s caps k res Hs Hcaps H.
  - destruct s as [|x s]; [discriminate|].
    destruct (x =? c); [|discriminate].
    inversion Hs; subst. exists s, caps. rewrite Nat.add_0_r. auto.
  - destruct s as [|x s]; [discriminate|].
    destruct (cls x); [|discriminate].
    inversion Hs; subst.
    apply star_reaches in H as (s1 & Hs1 & Hk); [|assumption].
    exists s1, caps. rewrite Nat.add_0_r. auto.
  - apply star_reaches in H as (s1 & Hs1 & Hk); [|assumption].
    exists s1, caps. rewrite Nat.add_0_r. auto.
  - apply IH1 in H as (s1 & caps1 & Hs1 & Hc1 & Hl1 & H); try assumption.
    apply IH2 in H as (s2 & caps2 & Hs2 & Hc2 & Hl2 & H); try assumption.
    exists s2, caps2. repeat split; try assumption. lia.
  - apply IH1 in H as (s1 & caps1 & Hs1 & Hc1 & Hl1 & H); try assumption.
    eexists _, _. repeat split; [exact Hs1 | | | exact H].
    + apply Forall_app. split; [assumption|].
      constructor; [|constructor]. now apply firstn_Forall.
    + unfold pystr in *. rewrite length_app, Hl1. simpl. lia.
Qed.
End MatcherFacts.

Lemma re_match_groups (P : char -> Prop) r s groups :
  Forall P s -> re_match r s = Some groups ->
  List.length groups = ngroups r /\ Forall (Forall P) groups.
Proof.
  intros Hs H. unfold re_match in H.
  apply (rmatch_reaches P) in H as (s1 & caps1 & _ & Hc & Hl & H);
    [|assumption|constructor].
  injection H as <-. auto.
Qed.

(** ** The loop body *)

Section LoopFacts.
Variable ua : char -> bool.

(** Run through what is left of the chain, one test at a time. *)
Ltac chain :=
  cbn [andb negb];
  repeat match goal with
         | |- context [if ?c then _ else _] => destruct c
         end;
  try reflexivity; now rewrite app_nil_r.

Lemma def_pattern_groups (P : char -> Prop) line groups :
  Forall P line -> re_match (def_pattern ua) line = Some groups ->
  exists func_name params,
    groups = [func_name; params] /\ Forall P func_name /\ Forall P params.
Proof.
  intros Hl H. apply (re_match_groups P) in H as [Hlen Hall]; [|assumption].
  change (ngroups (def_pattern ua)) with 2%nat in Hlen.
  destruct groups as [|a [|b [|c g]]]; try discriminate.
  inversion Hall as [|? ? Ha Hb]; subst. inversion Hb; subst.
  now exists a, b.
Qed.

(** Every branch of the chain appends to [js_lines] and returns: the
    unpacking of [groups()] finds two groups, and [parts] has two entries
    whenever the assignment branch is taken. *)
Lemma classify_emitted js_lines line :
  classify ua js_lines line = Returned (js_lines ++ emitted ua line).
Proof.
  unfold emitted, classify.
  destruct (startswith line (py "def ")).
  { destruct (re_match (def_pattern ua) line) as [g|] eqn:Hm.
    - apply (def_pattern_groups (fun _ => True)) in Hm as (a & b & -> & _).
      + reflexivity.
      + apply Forall_forall. trivial.
    - now rewrite app_nil_r. }
  destruct (startswith line (py "return ")); [reflexivity|].
  destruct (startswith line (py "print(")); [reflexivity|].
  destruct (contains (py "=") line) eqn:Heq; [|chain].
  destruct (startswith line (py "if")); [chain|].
  destruct (startswith line (py "while")); [chain|].
  cbn [andb negb].
  destruct (contains (py "+=") line); [reflexivity|].
  change (py "=") with [61] in Heq.
  apply splitn_one in Heq as (a & b & -> & _). reflexivity.
Qed.

Lemma process_line_emitted js_lines line :
  process_line ua js_lines line
  = Returned (js_lines ++ emitted ua (strip line)).
Proof. apply classify_emitted. Qed.

Lemma for_each_process_line lines :
  forall js_lines,
    for_each lines (process_line ua) js_lines
    = Returned (js_lines ++ body_of ua lines).
Proof.
  unfold body_of.
  induction lines as [|l lines IH]; intros js_lines; simpl.
  - now rewrite app_nil_r.
  - rewrite process_line_emitted. simpl. rewrite IH. now rewrite <- app_assoc.
Qed.

(** The text [transpile] joins: the two header lines, what the lines of
    the stripped input add, and the closing brace. *)
Lemma transpile_lines_eq code :
  transpile_lines ua code
  = Returned ([py "// Generated JavaScript"; py ""]
              ++ body_of ua (split nl (strip code)) ++ [py "}"]).
Proof.
  unfold transpile_lines. rewrite for_each_process_line. reflexivity.
Qed.

Lemma transpile_eq code :
  transpile ua code
  = Returned (join [nl] ([py "// Generated JavaScript"; py ""]
                         ++ body_of ua (split nl (strip code)) ++ [py "}"])).
Proof. unfold transpile. now rewrite transpile_lines_eq. Qed.

End LoopFacts.

(** ** Whitespace never reaches the output

    [code.strip()] and [line.strip()] together make the loop blind to the
    whitespace around every line: what the loop adds is the same with and
    without the first [strip]. *)

Lemma split_snoc_sep sep s : split sep (s ++ [sep]) = split sep s ++ [[]].
Proof.
  induction s as [|x s IH]; simpl.
  - now rewrite N.eqb_refl.
  - destruct (x =? sep); rewrite IH; [reflexivity|].
    destruct (split sep s) as [|l ls] eqn:E; [|reflexivity].
    now apply split_not_nil in E.
Qed.

Lemma split_snoc_other sep c s :
  c <> sep -> split sep (s ++ [c]) = snoc_last c (split sep s).
Proof.
  intros Hc. induction s as [|x s IH]; simpl.
  - apply N.eqb_neq in Hc. now rewrite Hc.
  - rewrite IH. pose proof (split_not_nil sep s) as Hne.
    destruct (x =? sep).
    + destruct (split sep s); [contradiction | reflexivity].
    + destruct (split sep s) as [|l [|l' ls]]; [contradiction| |]; reflexivity.
Qed.

Section Whitespace.
Variable ua : char -> bool.

Lemma emitted_nil : emitted ua [] = [].
Proof. reflexivity. Qed.

Lemma body_of_cons l lines :
  body_of ua (l :: lines) = emitted ua (strip l) ++ body_of ua lines.
Proof. reflexivity. Qed.

Lemma body_of_app lines lines' :
  body_of ua (lines ++ lines') = body_of ua lines ++ body_of ua lines'.
Proof. unfold body_of. now rewrite map_app, flat_map_app. Qed.

Lemma body_of_blank : body_of ua [[]] = [].
Proof. reflexivity. Qed.

Lemma body_of_space_cons c s :
  isspace c = true ->
  body_of ua (split nl (c :: s)) = body_of ua (split nl s).
Proof.
  intros Hc. destruct (N.eq_dec c nl) as [-> | Hne].
  - rewrite split_cons_sep, body_of_cons. reflexivity.
  - destruct (split_cons_other nl c s Hne) as (l & ls & -> & ->).
    rewrite !body_of_cons. now rewrite strip_space_cons.
Qed.

Lemma body_of_lstrip s :
  body_of ua (split nl (lstrip s)) = body_of ua (split nl s).
Proof.
  induction s as [|c s IH]; [reflexivity|].
  destruct (isspace c) eqn:Hc.
  - rewrite lstrip_space, body_of_space_cons; assumption.
  - now rewrite lstrip_other.
Qed.

Lemma body_of_snoc_last c lines :
  isspace c = true -> lines <> [] ->
  body_of ua (snoc_last c lines) = body_of ua lines.
Proof.
  intros Hc. induction lines as [|l [|l' rest] IH]; intros Hne.
  - contradiction.
  - simpl snoc_last. rewrite !body_of_cons. now rewrite strip_snoc_space.
  - change (snoc_last c (l :: l' :: rest)) with (l :: snoc_last c (l' :: rest)).
    rewrite !(body_of_cons l). now rewrite IH.
Qed.

Lemma body_of_space_snoc c s :
  isspace c = true ->
  body_of ua (split nl (s ++ [c])) = body_of ua (split nl s).
Proof.
  intros Hc. destruct (N.eq_dec c nl) as [-> | Hne].
  - rewrite split_snoc_sep, body_of_app, body_of_blank. apply app_nil_r.
  - rewrite split_snoc_other by assumption.
    apply body_of_snoc_last; [assumption | apply split_not_nil].
Qed.

Lemma body_of_rstrip s :
  body_of ua (split nl (rstrip s)) = body_of ua (split nl s).
Proof.
  induction s as [|c s IH] using rev_ind; [reflexivity|].
  destruct (isspace c) eqn:Hc.
  - rewrite rstrip_snoc_space, body_of_space_snoc; assumption.
  - now rewrite rstrip_snoc_other.
Qed.

Lemma body_of_strip s :
  body_of ua (split nl (strip s)) = body_of ua (split nl s).
Proof. unfold strip. now rewrite body_of_rstrip, body_of_lstrip. Qed.

(** [transpile] as a function of the stripped lines of its input. *)
Lemma transpile_by_lines code :
  transpile ua code
  = Returned (join [nl] ([py "// Generated JavaScript"; py ""]
                         ++ flat_map (emitted ua) (map strip (split nl code))
                         ++ [py "}"])).
Proof. rewrite transpile_eq, body_of_strip. reflexivity. Qed.

End Whitespace.

(** ** The lines of the output

    No line of [js_lines] holds a newline, so the lines of the returned text
    are the entries of [js_lines]. *)

Lemma split_join sep lines :
  lines <> [] -> Forall (Forall (fun c => c <> sep)) lines ->
  split sep (join [sep] lines) = lines.
Proof.
  intros Hne Hfree. induction Hfree as [|l lines Hl Hlines IH]; [contradiction|].
  clear Hne. destruct lines as [|l' lines].
  - simpl. clear IH Hlines.
    induction Hl as [|c l Hc Hl IHl]; [reflexivity|].
    simpl. apply N.eqb_neq in Hc. now rewrite Hc, IHl.
  - change (join [sep] (l :: l' :: lines))
      with (l ++ sep :: join [sep] (l' :: lines)).
    induction Hl as [|c l Hc Hl IHl].
    + rewrite app_nil_l, split_cons_sep. now rewrite IH.
    + simpl. apply N.eqb_neq in Hc. rewrite Hc.
      simpl in IHl. now rewrite IHl.
Qed.

Section OutputLines.
Variable ua : char -> bool.

Ltac pieces :=
  repeat match goal with
         | |- Forall _ [] => constructor
         | |- Forall _ (_ :: _) => constructor
         | |- Forall _ (_ ++ _) => apply Forall_app; split
         | |- Forall _ (slice _ _ _) => apply slice_Forall
         | |- Forall _ (slice_from _ _) => apply slice_from_Forall
         | |- Forall _ (strip _) => apply strip_Forall
         | |- Forall no_newline (py _) => literal
         end;
  try assumption.

Lemma emitted_no_newline line :
  Forall no_newline line -> Forall (Forall no_newline) (emitted ua line).
Proof.
  intros Hl. unfold emitted, classify.
  destruct (startswith line (py "def ")).
  { destruct (re_match (def_pattern ua) line) as [g|] eqn:Hm; [|constructor].
    apply (def_pattern_groups ua no_newline) in Hm as (a & b & -> & Ha & Hb);
      [pieces | assumption]. }
  destruct (startswith line (py "return ")); [pieces|].
  destruct (startswith line (py "print(")); [pieces|].
  destruct (contains (py "=") line
            && negb (startswith line (py "if"))
            && negb (startswith line (py "while"))) eqn:Heq.
  { destruct (contains (py "+=") line); [pieces|].
    apply andb_prop in Heq as [Heq _]. apply andb_prop in Heq as [Heq _].
    change (py "=") with [61] in Heq.
    apply splitn_one in Heq as (a & b & -> & E). subst line.
    apply Forall_app in Hl as [Ha Hb]. inversion Hb; subst.
    cbn [bind index nth_error]. pieces. }
  repeat match goal with
         | |- context [if ?c then _ else _] => destruct c
         end; pieces.
Qed.

Lemma body_of_no_newline s :
  Forall (Forall no_newline) (body_of ua (split nl s)).
Proof.
  unfold body_of. pose proof (split_lines_free nl s) as H.
  induction H as [|l lines Hl Hlines IH]; simpl; [constructor|].
  apply Forall_app. split; [|exact IH].
  apply emitted_no_newline, strip_Forall, Hl.
Qed.

Lemma transpile_lines_no_newline code js_lines :
  transpile_lines ua code = Returned js_lines ->
  Forall (Forall no_newline) js_lines.
Proof.
  rewrite transpile_lines_eq. intros H. injection H as <-.
  pose proof (body_of_no_newline (strip code)). pieces.
Qed.

End OutputLines.

(** ** What single lines become *)

Lemma slice_from_1 c s : slice_from (c :: s) 1 = s.
Proof.
  unfold slice_from, slice_bound. cbn [List.length Z.ltb Z.compare].
  replace (Z.to_nat _) with 1%nat by lia. reflexivity.
Qed.

Lemma startswith_prefix s p :
  startswith s p = true -> exists rest, s = p ++ rest.
Proof.
  revert s. induction p as [|x p IH]; intros s H.
  - now exists s.
  - destruct s as [|c s]; [discriminate|]. simpl in H.
    apply andb_prop in H as [Hc H]. apply N.eqb_eq in Hc. subst c.
    destruct (IH s H) as [rest ->]. now exists rest.
Qed.

Section SingleLines.
Variable ua : char -> bool.

(** The last branch of the chain: [#] and what follows it become a line
    comment, unless an [=] sent the line to the assignment branch. *)
Lemma emitted_comment rest :
  contains (py "=") rest = false ->
  emitted ua (35 :: rest) = [py "// " ++ rest].
Proof.
  intros Hno. unfold emitted, classify.
  change (contains (py "=") (35 :: rest)) with (contains (py "=") rest).
  rewrite Hno. cbn [andb]. rewrite slice_from_1. reflexivity.
Qed.

(** The branch of the other statements: the line, then a semicolon. *)
Lemma emitted_unsupported line :
  unsupported_statement line = true ->
  contains (py "=") line = false ->
  emitted ua line = [line ++ py ";"].
Proof.
  intros Hu Hno. unfold emitted, classify. rewrite Hno. cbn [andb].
  unfold unsupported_statement in Hu.
  repeat (apply orb_prop in Hu as [Hu | Hu]);
    apply startswith_prefix in Hu as [rest ->]; reflexivity.
Qed.

(** The returned text, read line by line. *)
Lemma transpile_output_lines code :
  exists js,
    transpile ua code = Returned js /\
    split nl js
    = [py "// Generated JavaScript"; py ""]
      ++ body_of ua (split nl code) ++ [py "}"].
Proof.
  eexists. split; [apply transpile_by_lines|].
  apply split_join; [discriminate|].
  pose proof (body_of_no_newline ua code) as Hbody.
  repeat constructor; try discriminate.
  apply Forall_app. split; [exact Hbody|].
  repeat constructor; discriminate.
Qed.

Lemma transpile_has_line code l out :
  In l (split nl code) -> In out (emitted ua (strip l)) ->
  exists js, transpile ua code = Returned js /\ In out (split nl js).
Proof.
  intros Hl Hout. destruct (transpile_output_lines code) as (js & Hjs & Hlines).
  exists js. split; [exact Hjs|]. rewrite Hlines.
  apply in_or_app. right. apply in_or_app. left.
  unfold body_of. apply in_flat_map. exists (strip l).
  split; [now apply in_map | exact Hout].
Qed.

End SingleLines.

(** ** The call in the store

    The list object of a call is the one allocated last; the loop changes
    that object and nothing else. *)

Lemma lookup_last h c a :
  lookup {| heap := h ++ [c]; attributes := a |} (List.length h) = c.
Proof. unfold lookup. cbn [heap]. now rewrite nth_middle. Qed.

Lemma replace_nth_last {A : Type} (h : list A) c c' :
  replace_nth (List.length h) c' (h ++ [c]) = h ++ [c'].
Proof. induction h as [|y h IH]; simpl; [reflexivity | now rewrite IH]. Qed.

Lemma list_append_last h c a x :
  list_append (List.length h) x {| heap := h ++ [c]; attributes := a |}
  = (Returned tt, {| heap := h ++ [c ++ [x]]; attributes := a |}).
Proof.
  unfold list_append, set_cell. rewrite lookup_last. cbn [heap attributes].
  now rewrite replace_nth_last.
Qed.

Section StoreFacts.
Variable ua : char -> bool.

Ltac store_chain :=
  cbn [andb negb];
  repeat match goal with
         | |- context [if ?c then _ else _] => destruct c
         end;
  first [ apply list_append_last | unfold retM; now rewrite app_nil_r ].

(** One line: the object gets what [emitted] says, the rest of the store
    stays. *)
Lemma classify_in_store_last h c a line :
  classify_in_store ua (List.length h) line
    {| heap := h ++ [c]; attributes := a |}
  = (Returned tt,
     {| heap := h ++ [c ++ emitted ua line]; attributes := a |}).
Proof.
  unfold classify_in_store, emitted, classify.
  destruct (startswith line (py "def ")).
  { destruct (re_match (def_pattern ua) line) as [g|] eqn:Hm.
    - apply (def_pattern_groups ua (fun _ => True)) in Hm
        as (f & p & -> & _); [|apply Forall_forall; trivial].
      apply list_append_last.
    - unfold retM. now rewrite app_nil_r. }
  destruct (startswith line (py "return ")); [apply list_append_last|].
  destruct (startswith line (py "print(")); [apply list_append_last|].
  destruct (contains (py "=") line) eqn:Heq; [|store_chain].
  destruct (startswith line (py "if")); [store_chain|].
  destruct (startswith line (py "while")); [store_chain|].
  cbn [andb negb].
  destruct (contains (py "+=") line); [apply list_append_last|].
  change (py "=") with [61] in Heq.
  apply splitn_one in Heq as (p0 & p1 & -> & _).
  unfold bindM, liftM. cbn [index nth_error]. apply list_append_last.
Qed.

Lemma for_each_in_store_last lines :
  forall h c a,
    for_each_in_store lines
      (fun line => classify_in_store ua (List.length h) (strip line))
      {| heap := h ++ [c]; attributes := a |}
    = (Returned tt,
       {| heap := h ++ [c ++ body_of ua lines]; attributes := a |}).
Proof.
  induction lines as [|l lines IH]; intros h c a.
  - cbn [for_each_in_store]. unfold retM, body_of. cbn [map flat_map].
    now rewrite app_nil_r.
  - cbn [for_each_in_store]. unfold bindM at 1.
    rewrite classify_in_store_last, IH, body_of_cons.
    now rewrite <- app_assoc.
Qed.

(** The whole call: the result is the one of [transpile], and the store
    gains the list object of the call and changes nowhere else. *)
Lemma transpile_in_store_run code st :
  transpile_in_store ua code st
  = (transpile ua code,
     {| heap :=
          heap st
          ++ [[py "// Generated JavaScript"; py ""]
              ++ body_of ua (split nl (strip code)) ++ [py "}"]];
        attributes := attributes st |}).
Proof.
  rewrite transpile_eq. unfold transpile_in_store, new_list.
  unfold bindM at 1. unfold bindM at 1. rewrite list_append_last.
  unfold bindM at 1. rewrite list_append_last.
  unfold bindM at 1. rewrite for_each_in_store_last.
  unfold bindM at 1. rewrite list_append_last.
  unfold bindM, read_list, retM. rewrite lookup_last.
  now rewrite <- !app_assoc.
Qed.

End StoreFacts.

(** ** The claims *)

(** C1. [def add(a, b):] with the body [return a + b] is translated to the
    header, a function declaration [add] with the parameters [a, b], the
    statement [return a + b;] as its only body line, and the closing brace. *)
Theorem transpile_def_add ua :
  transpile ua def_add_source
  = Returned (py "// Generated JavaScript" ++ [nl] ++ [nl]
              ++ py "function add(a, b) {" ++ [nl]
              ++ py "    return a + b;" ++ [nl]
              ++ py "}").
Proof. vm_compute. reflexivity. Qed.

(** C2, as the claim has it, fails: [import os] raises no error. *)
Lemma import_raises_nothing :
  ~ (exists ua e, transpile ua import_source = Raised e).
Proof. intros (ua & e & H). vm_compute in H. discriminate. Qed.

(** C2, amended. An input with an import, a class definition, a [try:] or an
    [except] line (holding no [=]) raises no error: [transpile] returns a
    text, and that line, stripped and with a semicolon after it, is one of
    its lines. *)
Theorem unsupported_statement_translated ua code l :
  In l (split nl code) ->
  unsupported_statement (strip l) = true ->
  contains (py "=") (strip l) = false ->
  exists js,
    transpile ua code = Returned js /\ In (strip l ++ py ";") (split nl js).
Proof.
  intros Hl Hu Hno. apply (transpile_has_line ua code l); [exact Hl|].
  rewrite (emitted_unsupported ua _ Hu Hno). now left.
Qed.

Lemma unsupported_statement_translated_witness :
  In import_source (split nl import_source) /\
  unsupported_statement (strip import_source) = true /\
  contains (py "=") (strip import_source) = false /\
  forall ua, exists js,
    transpile ua import_source = Returned js /\
    In (strip import_source ++ py ";") (split nl js).
Proof.
  assert (H1 : In import_source (split nl import_source)) by now left.
  assert (H2 : unsupported_statement (strip import_source) = true)
    by reflexivity.
  assert (H3 : contains (py "=") (strip import_source) = false)
    by reflexivity.
  repeat split; try assumption.
  intros ua.
  exact (unsupported_statement_translated ua import_source import_source
           H1 H2 H3).
Defined.

(** A dict literal raises no error either: the assignment branch takes the
    line. *)
Lemma dict_literal_translated ua :
  transpile ua dict_source
  = Returned (py "// Generated JavaScript" ++ [nl] ++ [nl]
              ++ py "let d = {};" ++ [nl] ++ py "}").
Proof. vm_compute. reflexivity. Qed.



(** C4. The code does not do what the claim says.  The branch for [for]
    lines stands under the comment [# Convert for loop], yet for
    [for i in range(3):] with the body [print(i)] it only keeps the line
    behind [//]: the output is the header, that line comment,
    [console.log(i);] outside any block and the closing brace, and none of
    its lines that is not a comment holds [for] or [while]. *)
Theorem for_range_not_converted ua :
  exists js,
    transpile ua for_range_source = Returned js /\
    js = py "// Generated JavaScript" ++ [nl] ++ [nl]
         ++ py "// for i in range(3):" ++ [nl]
         ++ py "console.log(i);" ++ [nl]
         ++ py "}" /\
    mentions_loop js = false.
Proof. eexists. repeat split; vm_compute; reflexivity. Qed.

(** C5. [print("hi")] becomes [console.log("hi");], but the text returned
    closes a brace that was never opened. *)
Theorem print_hi_unbalanced ua :
  transpile ua print_hi_source = Returned print_hi_output /\
  braces_balanced print_hi_output = false.
Proof. split; vm_compute; reflexivity. Qed.

(** The closing brace does close the one block of C1. *)
Lemma def_add_balanced ua :
  exists js,
    transpile ua def_add_source = Returned js /\ braces_balanced js = true.
Proof. eexists. split; vm_compute; reflexivity. Qed.

(** C6. Two calls with the same text give the same string.  The result
    does not depend on the store the call starts from, neither on the list
    objects in it nor on the attributes of the instance; a call leaves the
    objects that were there and the attributes as they were, and a second
    call, which starts from the store the first left, returns what the
    first returned. *)
Theorem transpile_deterministic ua code (st st' : store) :
  fst (transpile_in_store ua code st) = fst (transpile_in_store ua code st')
  /\ (let (first, st1) := transpile_in_store ua code st in
      let (second, st2) := transpile_in_store ua code st1 in
      first = second /\
      attributes st2 = attributes st /\
      firstn (List.length (heap st)) (heap st2) = heap st)
  /\ fst (transpile_in_store ua code st) = transpile ua code.
Proof.
  rewrite (transpile_in_store_run ua code st).
  rewrite (transpile_in_store_run ua code st').
  split; [reflexivity|]. split; [|reflexivity].
  rewrite transpile_in_store_run. cbn [heap attributes].
  split; [reflexivity|]. split; [reflexivity|].
  rewrite <- app_assoc, firstn_app, Nat.sub_diag, firstn_all.
  cbn [firstn]. apply app_nil_r.
Qed.

(** C7, as the claim has it, fails: a comment line adds a line to the
    output. *)
Lemma comment_line_is_kept :
  ~ (exists ua, transpile ua comment_source = transpile ua []).
Proof. intros (ua & H). vm_compute in H. discriminate. Qed.

(** C7, amended. A line that is [#] and a text without [=], whitespace
    around it aside, is kept as a line comment: [// ] and that text. *)
Theorem comment_line_translated ua code l rest :
  In l (split nl code) ->
  strip l = 35 :: rest ->
  contains (py "=") rest = false ->
  exists js,
    transpile ua code = Returned js /\ In (py "// " ++ rest) (split nl js).
Proof.
  intros Hl Hs Hno. apply (transpile_has_line ua code l); [exact Hl|].
  rewrite Hs, (emitted_comment ua rest Hno). now left.
Qed.

Lemma comment_line_translated_witness :
  In comment_source (split nl comment_source) /\
  strip comment_source = 35 :: py " hi" /\
  contains (py "=") (py " hi") = false /\
  forall ua, exists js,
    transpile ua comment_source = Returned js /\
    In (py "// " ++ py " hi") (split nl js).
Proof.
  assert (H1 : In comment_source (split nl comment_source)) by now left.
  assert (H2 : strip comment_source = 35 :: py " hi") by reflexivity.
  assert (H3 : contains (py "=") (py " hi") = false) by reflexivity.
  repeat split; try assumption.
  intros ua.
  exact (comment_line_translated ua comment_source comment_source (py " hi")
           H1 H2 H3).
Defined.

(** C8. [transpile] returns a string for every input: no operation of the
    loop raises. *)
Theorem transpile_total ua code :
  exists js, transpile ua code = Returned js.
Proof. eexists. apply transpile_eq. Qed.

(** C9. The first line of the output is [// Generated JavaScript], the
    second is empty and the last is [}], for every input. *)
Theorem transpile_frame ua code :
  exists js body,
    transpile ua code = Returned js /\
    split nl js = py "// Generated JavaScript" :: py "" :: body ++ [py "}"].
Proof.
  destruct (transpile_output_lines ua code) as (js & Hjs & Hlines).
  exists js, (body_of ua (split nl code)). split; assumption.
Qed.

(** C10. Two inputs whose lines are the same once stripped have the same
    translation. *)
Theorem transpile_ignores_indentation ua s s' :
  Forall2 (fun l l' => strip l = strip l') (split nl s) (split nl s') ->
  transpile ua s = transpile ua s'.
Proof.
  intros H. rewrite !transpile_by_lines. do 4 f_equal.
  induction H as [|l l' ls ls' Hl _ IH]; simpl; [reflexivity|].
  now rewrite Hl, IH.
Qed.

Lemma transpile_ignores_indentation_witness :
  Forall2 (fun l l' => strip l = strip l')
    (split nl def_add_source) (split nl def_add_indented) /\
  forall ua, transpile ua def_add_source = transpile ua def_add_indented.
Proof.
  assert (H : Forall2 (fun l l' => strip l = strip l')
                (split nl def_add_source) (split nl def_add_indented))
    by (repeat constructor).
  split; [exact H|].
  intros ua.
  exact (transpile_ignores_indentation ua def_add_source def_add_indented H).
Defined.

(** * Beyond the claims *)

(** ** Slices *)

Lemma slice_bound_inside len i : (0 <= i <= len)%Z -> slice_bound len i = i.
Proof.
  intros H. unfold slice_bound.
  destruct (Z.ltb_spec i 0); lia.
Qed.

Lemma slice_bound_from_end len i :
  (- len <= i < 0)%Z -> slice_bound len i = (i + len)%Z.
Proof.
  intros H. unfold slice_bound.
  destruct (Z.ltb_spec i 0); lia.
Qed.

Lemma slice_from_prefix p v :
  slice_from (p ++ v) (Z.of_nat (List.length p)) = v.
Proof.
  unfold slice_from. rewrite slice_bound_inside.
  - rewrite Nat2Z.id. rewrite skipn_app, skipn_all, Nat.sub_diag. reflexivity.
  - rewrite length_app. lia.
Qed.

(** [s[len(p):-1]] is what stands between [p] and the last character. *)
Lemma slice_inner p m c :
  slice (p ++ m ++ [c]) (Z.of_nat (List.length p)) (-1) = m.
Proof.
  unfold slice. set (len := Z.of_nat (List.length (p ++ m ++ [c]))).
  assert (Hlen : len = (Z.of_nat (List.length p)
                        + Z.of_nat (List.length m) + 1)%Z).
  { unfold len. rewrite !length_app. cbn [List.length]. lia. }
  rewrite (slice_bound_inside len (Z.of_nat (List.length p))) by lia.
  rewrite (slice_bound_from_end len (-1)) by lia.
  rewrite Nat2Z.id, skipn_app, skipn_all, Nat.sub_diag. cbn [skipn app].
  replace (Z.to_nat _) with (List.length m) by lia.
  rewrite firstn_app, firstn_all, Nat.sub_diag. cbn [firstn]. apply app_nil_r.
Qed.

Lemma splitn_first c a b :
  contains [c] a = false -> splitn c 1 (a ++ c :: b) = [a; b].
Proof.
  induction a as [|x a IH]; cbn [app].
  - intros _. simpl. rewrite N.eqb_refl. now destruct b.
  - simpl. destruct (x =? c); [discriminate|]. cbn [andb orb].
    intros H. now rewrite (IH H).
Qed.

Lemma contains_last p c s :
  contains (p ++ [c]) s = true -> contains [c] s = true.
Proof.
  assert (Hpre : forall q t, startswith t (q ++ [c]) = true ->
                             contains [c] t = true).
  { induction q as [|y q IHq]; intros t Ht.
    - destruct t as [|x t]; [discriminate|]. simpl in *. now rewrite Ht.
    - destruct t as [|x t]; [discriminate|]. simpl in Ht.
      apply andb_prop in Ht as [_ Ht]. simpl.
      rewrite (IHq t Ht). apply orb_true_r. }
  induction s as [|x s IH]; intros H.
  - destruct p; discriminate.
  - cbn [contains] in H. apply orb_prop in H as [H | H].
    + now apply (Hpre p).
    + simpl. rewrite (IH H). apply orb_true_r.
Qed.

(** ** The branches, one by one *)

Section Branches.
Variable ua : char -> bool.

Lemma emitted_return value :
  emitted ua (py "return " ++ value) = [py "    return " ++ value ++ py ";"].
Proof.
  unfold emitted, classify. cbv zeta.
  change 7%Z with (Z.of_nat (List.length (py "return "))).
  rewrite slice_from_prefix. reflexivity.
Qed.

Lemma emitted_print args c :
  emitted ua (py "print(" ++ args ++ [c])
  = [py "console.log(" ++ args ++ py ");"].
Proof.
  unfold emitted, classify. cbv zeta.
  change 6%Z with (Z.of_nat (List.length (py "print("))).
  rewrite slice_inner. reflexivity.
Qed.

Lemma emitted_if condition c :
  emitted ua (py "if " ++ condition ++ [c])
  = [py "if (" ++ condition ++ py ") {"].
Proof.
  unfold emitted, classify. cbv zeta.
  change 3%Z with (Z.of_nat (List.length (py "if "))).
  rewrite slice_inner.
  destruct (contains (py "=") (py "if " ++ condition ++ [c])); reflexivity.
Qed.

Lemma emitted_while condition c :
  emitted ua (py "while " ++ condition ++ [c])
  = [py "while (" ++ condition ++ py ") {"].
Proof.
  unfold emitted, classify. cbv zeta.
  change 6%Z with (Z.of_nat (List.length (py "while "))).
  rewrite slice_inner.
  destruct (contains (py "=") (py "while " ++ condition ++ [c])); reflexivity.
Qed.

End Branches.

Lemma contains_middle c a b : contains [c] (a ++ c :: b) = true.
Proof.
  induction a as [|x a IH]; simpl.
  - now rewrite N.eqb_refl.
  - rewrite IH. apply orb_true_r.
Qed.

Lemma contains_none c s :
  contains [c] s = false -> Forall (fun x => x <> c) s.
Proof.
  induction s as [|x s IH]; simpl; [constructor|].
  destruct (x =? c) eqn:E; [discriminate|]. cbn [andb orb].
  intros H. constructor; [now apply N.eqb_neq | now apply IH].
Qed.

Lemma keyword_line_false line :
  keyword_line line = false ->
  startswith line (py "def ") = false /\
  startswith line (py "return ") = false /\
  startswith line (py "print(") = false /\
  startswith line (py "if") = false /\
  startswith line (py "while") = false.
Proof.
  unfold keyword_line. intros H.
  repeat (apply orb_false_elim in H as [H ?]). auto.
Qed.

Section MoreBranches.
Variable ua : char -> bool.

(** [if] without the space after it is no conditional, and keeps a line
    with [=] from being an assignment. *)
Lemma emitted_if_glued rest :
  startswith rest (py " ") = false ->
  emitted ua (py "if" ++ rest) = [py "if" ++ rest ++ py ";"].
Proof.
  intros H. unfold emitted, classify.
  change (startswith (py "if" ++ rest) (py "if "))
    with (startswith rest (py " ")).
  rewrite H.
  destruct (contains (py "=") (py "if" ++ rest)); reflexivity.
Qed.

Lemma emitted_assignment a b :
  contains (py "=") a = false ->
  contains (py "+=") (a ++ 61 :: b) = false ->
  keyword_line (a ++ 61 :: b) = false ->
  emitted ua (a ++ 61 :: b)
  = [py "let " ++ strip a ++ py " = " ++ strip b ++ py ";"].
Proof.
  intros Ha Hplus Hk.
  apply keyword_line_false in Hk as (H1 & H2 & H3 & H4 & H5).
  unfold emitted, classify. rewrite H1, H2, H3, H4, H5, Hplus.
  change (py "=") with [61]. rewrite contains_middle. cbn [andb negb].
  cbv zeta. pose proof (splitn_first 61 a b Ha) as Hs.
  unfold pystr, char in *. rewrite Hs. reflexivity.
Qed.

Lemma emitted_augmented line :
  contains (py "+=") line = true ->
  keyword_line line = false ->
  emitted ua line = [line ++ py ";"].
Proof.
  intros Hplus Hk.
  apply keyword_line_false in Hk as (H1 & H2 & H3 & H4 & H5).
  assert (Heq : contains (py "=") line = true)
    by exact (contains_last [43] 61 line Hplus).
  unfold emitted, classify. rewrite H1, H2, H3, H4, H5, Hplus, Heq.
  reflexivity.
Qed.

(** No line adds more than one line. *)
Lemma emitted_length line : (List.length (emitted ua line) <= 1)%nat.
Proof.
  unfold emitted, classify. cbv zeta.
  destruct (re_match (def_pattern ua) line) as [[|f [|p [|x g]]]|];
    destruct (splitn 61 1 line) as [|p0 [|p1 parts]];
    repeat match goal with
           | |- context [if ?c then _ else _] => destruct c
           end;
    cbn; lia.
Qed.

End MoreBranches.

(** ** The pattern of the [def] branch *)

Lemma star_munch {A : Type} cls (k : pystr -> option A) w rest a :
  forallb cls w = true ->
  match rest with
  | c :: _ => cls c = false
  | [] => True
  end ->
  k rest = Some a ->
  star cls k (w ++ rest) = Some a.
Proof.
  intros Hw Hrest Hk. induction w as [|x w IH]; cbn [app].
  - destruct rest as [|c rest]; simpl; [exact Hk|]. now rewrite Hrest.
  - simpl in Hw. apply andb_prop in Hw as [Hx Hw].
    simpl. now rewrite Hx, (IH Hw).
Qed.

Lemma ascii_word_range c :
  ascii_word c = true ->
  c = 95 \/ 48 <= c <= 57 \/ 65 <= c <= 90 \/ 97 <= c <= 122.
Proof.
  unfold ascii_word, ascii_isalnum. intros H.
  repeat match type of H with
         | (_ || _) = true => apply orb_prop in H as [H | H]
         | (_ && _) = true => apply andb_prop in H as [? H]
         end;
    repeat match goal with
           | E : (_ =? _) = true |- _ => apply N.eqb_eq in E
           | E : (_ <=? _) = true |- _ => apply N.leb_le in E
           end; lia.
Qed.

Lemma ascii_word_not_space c : ascii_word c = true -> isspace c = false.
Proof.
  intros H. apply ascii_word_range in H. unfold isspace.
  repeat match goal with
         | |- context [?a <=? ?b] => destruct (N.leb_spec a b); try lia
         | |- context [?a =? ?b] => destruct (N.eqb_spec a b); try lia
         end; reflexivity.
Qed.

Lemma firstn_prefix (w r : pystr) :
  firstn (List.length (w ++ r) - List.length r) (w ++ r) = w.
Proof.
  rewrite length_app. replace (_ - _)%nat with (List.length w) by lia.
  rewrite firstn_app, firstn_all, Nat.sub_diag. cbn [firstn]. apply app_nil_r.
Qed.

Lemma forallb_weaken (p q : char -> bool) s :
  (forall c, p c = true -> q c = true) ->
  forallb p s = true -> forallb q s = true.
Proof.
  intros Hpq. induction s as [|c s IH]; simpl; [reflexivity|].
  intros H. apply andb_prop in H as [Hc Hs]. now rewrite (Hpq c Hc), IH.
Qed.

Lemma rmatch_cat_step {A : Type} (P : char -> Prop) r1 r2 s caps
  (k : pystr -> list pystr -> option A) res :
  Forall P s -> Forall (Forall P) caps ->
  rmatch (Cat r1 r2) s caps k = Some res ->
  exists s1 caps1,
    Forall P s1 /\ Forall (Forall P) caps1 /\
    rmatch r2 s1 caps1 k = Some res.
Proof.
  intros Hs Hcaps H. cbn [rmatch] in H.
  apply (rmatch_reaches P) in H as (s1 & caps1 & Hs1 & Hcaps1 & _ & H);
    [|assumption|assumption].
  now exists s1, caps1.
Qed.

Section DefBranch.
Variable ua : char -> bool.

Lemma ascii_word_isword c : ascii_word c = true -> isword ua c = true.
Proof.
  intros H. unfold isword. pose proof (ascii_word_range c H) as Hr.
  unfold ascii_word in H. destruct (N.ltb_spec c 128); [exact H | lia].
Qed.

Lemma def_pattern_unfolded :
  def_pattern ua
  = Cat (Chr 100) (Cat (Chr 101) (Cat (Chr 102)
      (Cat (Plus isspace)
      (Cat (Grp (Plus (isword ua)))
      (Cat (Star isspace)
      (Cat (Chr 40)
      (Cat (Grp (Star not_rparen))
      (Cat (Chr 41)
      (Cat (Star isspace)
           (Chr 58)))))))))).
Proof. reflexivity. Qed.

Lemma def_pattern_matches ws name params tail :
  forallb isspace ws = true ->
  name <> [] -> forallb ascii_word name = true ->
  forallb not_rparen params = true ->
  re_match (def_pattern ua)
    (py "def " ++ ws ++ name ++ py "(" ++ params ++ py "):" ++ tail)
  = Some [name; params].
Proof.
  intros Hws Hne Hname Hparams.
  destruct name as [|n0 name]; [contradiction|]. clear Hne.
  cbn [forallb] in Hname. apply andb_prop in Hname as [Hn0 Hname].
  unfold re_match. rewrite def_pattern_unfolded.
  change (py "def " ++ ?x) with (100 :: 101 :: 102 :: 32 :: x).
  cbn [rmatch]. rewrite !N.eqb_refl. change (isspace 32) with true. cbv iota.
  apply star_munch; [exact Hws | now apply ascii_word_not_space |].
  cbn [app]. rewrite (ascii_word_isword n0 Hn0).
  change (py "(" ++ ?x) with (40 :: x).
  apply star_munch;
    [exact (forallb_weaken _ _ _ ascii_word_isword Hname) | reflexivity |].
  cbn [star]. change (isspace 40) with false. cbv iota.
  rewrite N.eqb_refl.
  change (py "):" ++ tail) with (41 :: 58 :: tail).
  apply star_munch; [exact Hparams | reflexivity |].
  rewrite N.eqb_refl. cbn [star]. change (isspace 58) with false. cbv iota.
  rewrite N.eqb_refl. cbn [app].
  change (n0 :: name ++ ?r) with ((n0 :: name) ++ r).
  now rewrite !firstn_prefix.
Qed.

(** A [def] line with an ASCII name: the name and the parameter text go to
    the function header as they are. *)
Lemma emitted_def ws name params tail :
  forallb isspace ws = true ->
  name <> [] -> forallb ascii_word name = true ->
  forallb not_rparen params = true ->
  emitted ua
    (py "def " ++ ws ++ name ++ py "(" ++ params ++ py "):" ++ tail)
  = [py "function " ++ name ++ py "(" ++ params ++ py ") {"].
Proof.
  intros Hws Hne Hname Hparams. unfold emitted, classify.
  rewrite (def_pattern_matches ws name params tail Hws Hne Hname Hparams).
  reflexivity.
Qed.

(** The pattern ends with a colon: a subject without one does not match. *)
Lemma def_pattern_needs_a_colon line :
  contains (py ":") line = false -> re_match (def_pattern ua) line = None.
Proof.
  intros Hno. change (py ":") with [58] in Hno. apply contains_none in Hno.
  destruct (re_match (def_pattern ua) line) as [g|] eqn:Hm; [|reflexivity].
  exfalso. unfold re_match in Hm. rewrite def_pattern_unfolded in Hm.
  assert (Hcaps : Forall (Forall (fun x : char => x <> 58)) (@nil pystr))
    by constructor.
  revert Hm Hno Hcaps. generalize (@nil pystr). generalize line.
  intros s caps Hm Hs Hcaps.
  repeat (apply (rmatch_cat_step (fun x : char => x <> 58)) in Hm;
          [ destruct Hm as (s' & caps' & Hs' & Hcaps' & Hm);
            clear Hs Hcaps s caps;
            rename s' into s, caps' into caps, Hs' into Hs, Hcaps' into Hcaps
          | assumption | assumption ]).
  cbn [rmatch] in Hm. destruct s as [|x s]; [discriminate|].
  destruct (N.eqb_spec x 58) as [-> | _]; [|discriminate].
  inversion Hs as [|? ? Hx _]. now apply Hx.
Qed.

(** A [def] line without a colon adds nothing. *)
Lemma emitted_def_without_colon line :
  startswith line (py "def ") = true ->
  contains (py ":") line = false ->
  emitted ua line = [].
Proof.
  intros Hd Hno. unfold emitted, classify.
  now rewrite Hd, (def_pattern_needs_a_colon line Hno).
Qed.

End DefBranch.

(** ** Lines are translated one by one *)

Lemma split_app_sep sep a b :
  split sep (a ++ sep :: b) = split sep a ++ split sep b.
Proof.
  induction a as [|x a IH]; cbn [app].
  - now rewrite split_cons_sep.
  - simpl. rewrite IH. pose proof (split_not_nil sep a) as Hne.
    destruct (x =? sep); [reflexivity|].
    destruct (split sep a); [contradiction | reflexivity].
Qed.

Lemma split_one_line sep l :
  Forall (fun c => c <> sep) l -> split sep l = [l].
Proof.
  intros H. apply (split_join sep [l]); [discriminate|]. now constructor.
Qed.

Section LineByLine.
Variable ua : char -> bool.

Lemma body_of_concat a b :
  body_of ua (split nl (a ++ nl :: b))
  = body_of ua (split nl a) ++ body_of ua (split nl b).
Proof. now rewrite split_app_sep, body_of_app. Qed.

Lemma body_of_whitespace ws :
  forallb isspace ws = true -> body_of ua (split nl ws) = [].
Proof.
  induction ws as [|c ws IH]; [reflexivity|].
  intros H. cbn [forallb] in H. apply andb_prop in H as [Hc Hws].
  rewrite body_of_space_cons by exact Hc. now apply IH.
Qed.

Lemma body_of_length lines :
  (List.length (body_of ua lines) <= List.length lines)%nat.
Proof.
  induction lines as [|l lines IH]; [reflexivity|].
  rewrite body_of_cons, length_app. cbn [List.length].
  pose proof (emitted_length ua (strip l)). lia.
Qed.

(** A line that adds nothing can be taken out. *)
Lemma transpile_without_line a l b :
  Forall no_newline l -> emitted ua (strip l) = [] ->
  transpile ua (a ++ nl :: l ++ nl :: b) = transpile ua (a ++ nl :: b).
Proof.
  intros Hl He. rewrite !transpile_eq, !body_of_strip.
  rewrite !body_of_concat. rewrite (split_one_line nl l Hl).
  rewrite body_of_cons, He. reflexivity.
Qed.

End LineByLine.

(** ** Properties of [transpile] *)

(** X1. The translation of two texts put one after the other, a newline
    between them, has the lines the first text adds and then the lines the
    second adds, between the header and the closing brace. *)
Theorem transpile_concat ua a b :
  exists ja jb jab ma mb,
    transpile ua a = Returned ja /\
    split nl ja = [py "// Generated JavaScript"; py ""] ++ ma ++ [py "}"] /\
    transpile ua b = Returned jb /\
    split nl jb = [py "// Generated JavaScript"; py ""] ++ mb ++ [py "}"] /\
    transpile ua (a ++ nl :: b) = Returned jab /\
    split nl jab
    = [py "// Generated JavaScript"; py ""] ++ ma ++ mb ++ [py "}"].
Proof.
  destruct (transpile_output_lines ua a) as (ja & Ha & Hla).
  destruct (transpile_output_lines ua b) as (jb & Hb & Hlb).
  destruct (transpile_output_lines ua (a ++ nl :: b)) as (jab & Hab & Hlab).
  exists ja, jb, jab, (body_of ua (split nl a)), (body_of ua (split nl b)).
  repeat split; try assumption.
  rewrite Hlab, body_of_concat. now rewrite <- app_assoc.
Qed.

(** X2. The output has at least three lines, and at most three more than
    the input has. *)
Theorem transpile_line_count ua code :
  exists js,
    transpile ua code = Returned js /\
    (3 <= List.length (split nl js) <= List.length (split nl code) + 3)%nat.
Proof.
  destruct (transpile_output_lines ua code) as (js & Hjs & Hlines).
  exists js. split; [exact Hjs|]. rewrite Hlines.
  rewrite !length_app. cbn [List.length].
  pose proof (body_of_length ua (split nl code)). lia.
Qed.

(** X3. Whitespace between two newlines, further newlines among it or not,
    changes nothing: blank lines leave no trace. *)
Theorem transpile_blank_lines ua a ws b :
  forallb isspace ws = true ->
  transpile ua (a ++ nl :: ws ++ nl :: b) = transpile ua (a ++ nl :: b).
Proof.
  intros Hws. rewrite !transpile_eq, !body_of_strip, !body_of_concat.
  now rewrite (body_of_whitespace ua ws Hws).
Qed.

Lemma transpile_blank_lines_witness :
  forallb isspace [32; 9; nl; 13] = true /\
  forall ua,
    transpile ua (py "x = 1" ++ nl :: [32; 9; nl; 13] ++ nl :: py "print(x)")
    = transpile ua (py "x = 1" ++ nl :: py "print(x)").
Proof.
  assert (H : forallb isspace [32; 9; nl; 13] = true) by reflexivity.
  split; [exact H|]. intros ua.
  exact (transpile_blank_lines ua (py "x = 1") [32; 9; nl; 13]
           (py "print(x)") H).
Defined.

(** X4. A line [print(] ... loses [print(] and its last character, whatever
    that character is, and what is left becomes the arguments of
    [console.log]. *)
Theorem transpile_print_line ua code l args c :
  In l (split nl code) ->
  strip l = py "print(" ++ args ++ [c] ->
  exists js,
    transpile ua code = Returned js /\
    In (py "console.log(" ++ args ++ py ");") (split nl js).
Proof.
  intros Hl Hs. apply (transpile_has_line ua code l); [exact Hl|].
  rewrite Hs, emitted_print. now left.
Qed.

Lemma transpile_print_line_witness :
  In (py "  print(a, b) # sum") (split nl (py "  print(a, b) # sum")) /\
  strip (py "  print(a, b) # sum") = py "print(" ++ py "a, b) # su" ++ [109] /\
  forall ua, exists js,
    transpile ua (py "  print(a, b) # sum") = Returned js /\
    In (py "console.log(" ++ py "a, b) # su" ++ py ");") (split nl js).
Proof.
  assert (H1 : In (py "  print(a, b) # sum")
                 (split nl (py "  print(a, b) # sum"))) by now left.
  assert (H2 : strip (py "  print(a, b) # sum")
               = py "print(" ++ py "a, b) # su" ++ [109]) by reflexivity.
  repeat split; try assumption. intros ua.
  exact (transpile_print_line ua _ _ _ _ H1 H2).
Defined.

(** X5. A line [if ] ... becomes [if (] ... [) {] with the last character
    (the colon, when the line is well formed) left out; an [=] in the
    condition does not make it an assignment. *)
Theorem transpile_if_line ua code l condition c :
  In l (split nl code) ->
  strip l = py "if " ++ condition ++ [c] ->
  exists js,
    transpile ua code = Returned js /\
    In (py "if (" ++ condition ++ py ") {") (split nl js).
Proof.
  intros Hl Hs. apply (transpile_has_line ua code l); [exact Hl|].
  rewrite Hs, emitted_if. now left.
Qed.

Lemma transpile_if_line_witness :
  In (py "    if x == 1:") (split nl (py "    if x == 1:")) /\
  strip (py "    if x == 1:") = py "if " ++ py "x == 1" ++ [58] /\
  forall ua, exists js,
    transpile ua (py "    if x == 1:") = Returned js /\
    In (py "if (" ++ py "x == 1" ++ py ") {") (split nl js).
Proof.
  assert (H1 : In (py "    if x == 1:") (split nl (py "    if x == 1:")))
    by now left.
  assert (H2 : strip (py "    if x == 1:") = py "if " ++ py "x == 1" ++ [58])
    by reflexivity.
  repeat split; try assumption. intros ua.
  exact (transpile_if_line ua _ _ _ _ H1 H2).
Defined.

(** X6. A line [while ] ... becomes [while (] ... [) {] in the same way. *)
Theorem transpile_while_line ua code l condition c :
  In l (split nl code) ->
  strip l = py "while " ++ condition ++ [c] ->
  exists js,
    transpile ua code = Returned js /\
    In (py "while (" ++ condition ++ py ") {") (split nl js).
Proof.
  intros Hl Hs. apply (transpile_has_line ua code l); [exact Hl|].
  rewrite Hs, emitted_while. now left.
Qed.

Lemma transpile_while_line_witness :
  In (py "while n <= 10:") (split nl (py "while n <= 10:")) /\
  strip (py "while n <= 10:") = py "while " ++ py "n <= 10" ++ [58] /\
  forall ua, exists js,
    transpile ua (py "while n <= 10:") = Returned js /\
    In (py "while (" ++ py "n <= 10" ++ py ") {") (split nl js).
Proof.
  assert (H1 : In (py "while n <= 10:") (split nl (py "while n <= 10:")))
    by now left.
  assert (H2 : strip (py "while n <= 10:")
               = py "while " ++ py "n <= 10" ++ [58]) by reflexivity.
  repeat split; try assumption. intros ua.
  exact (transpile_while_line ua _ _ _ _ H1 H2).
Defined.

(** X7. A line with [=] that none of the keyword tests takes and that has
    no [+=] is cut at its first [=]: it becomes [let], the stripped left
    side, [ = ], the stripped right side and a semicolon, whatever the two
    sides are. *)
Theorem transpile_assignment_line ua code l a b :
  In l (split nl code) ->
  strip l = a ++ 61 :: b ->
  contains (py "=") a = false ->
  contains (py "+=") (a ++ 61 :: b) = false ->
  keyword_line (a ++ 61 :: b) = false ->
  exists js,
    transpile ua code = Returned js /\
    In (py "let " ++ strip a ++ py " = " ++ strip b ++ py ";") (split nl js).
Proof.
  intros Hl Hs Ha Hplus Hk. apply (transpile_has_line ua code l); [exact Hl|].
  pose proof (emitted_assignment ua a b Ha Hplus Hk) as He.
  rewrite Hs. unfold pystr, char in *. rewrite He. now left.
Qed.

Lemma transpile_assignment_line_witness :
  In (py "same   =  a == b") (split nl (py "same   =  a == b")) /\
  strip (py "same   =  a == b") = py "same   " ++ 61 :: py "  a == b" /\
  contains (py "=") (py "same   ") = false /\
  contains (py "+=") (py "same   " ++ 61 :: py "  a == b") = false /\
  keyword_line (py "same   " ++ 61 :: py "  a == b") = false /\
  forall ua, exists js,
    transpile ua (py "same   =  a == b") = Returned js /\
    In (py "let " ++ strip (py "same   ") ++ py " = "
        ++ strip (py "  a == b") ++ py ";") (split nl js).
Proof.
  assert (H1 : In (py "same   =  a == b") (split nl (py "same   =  a == b")))
    by now left.
  assert (H2 : strip (py "same   =  a == b")
               = py "same   " ++ 61 :: py "  a == b") by reflexivity.
  assert (H3 : contains (py "=") (py "same   ") = false) by reflexivity.
  assert (H4 : contains (py "+=") (py "same   " ++ 61 :: py "  a == b")
               = false) by reflexivity.
  assert (H5 : keyword_line (py "same   " ++ 61 :: py "  a == b") = false)
    by reflexivity.
  repeat split; try assumption. intros ua.
  exact (transpile_assignment_line ua _ _ _ _ H1 H2 H3 H4 H5).
Defined.

(** X8. A line with [+=] that none of the keyword tests takes is copied,
    stripped, with a semicolon after it. *)
Theorem transpile_augmented_line ua code l :
  In l (split nl code) ->
  contains (py "+=") (strip l) = true ->
  keyword_line (strip l) = false ->
  exists js,
    transpile ua code = Returned js /\ In (strip l ++ py ";") (split nl js).
Proof.
  intros Hl Hplus Hk. apply (transpile_has_line ua code l); [exact Hl|].
  rewrite (emitted_augmented ua _ Hplus Hk). now left.
Qed.

Lemma transpile_augmented_line_witness :
  In (py "    count += 1") (split nl (py "    count += 1")) /\
  contains (py "+=") (strip (py "    count += 1")) = true /\
  keyword_line (strip (py "    count += 1")) = false /\
  forall ua, exists js,
    transpile ua (py "    count += 1") = Returned js /\
    In (strip (py "    count += 1") ++ py ";") (split nl js).
Proof.
  assert (H1 : In (py "    count += 1") (split nl (py "    count += 1")))
    by now left.
  assert (H2 : contains (py "+=") (strip (py "    count += 1")) = true)
    by reflexivity.
  assert (H3 : keyword_line (strip (py "    count += 1")) = false)
    by reflexivity.
  repeat split; try assumption. intros ua.
  exact (transpile_augmented_line ua _ _ H1 H2 H3).
Defined.

(** X9. A [def] line with an ASCII name, [(] right after the name and [):]
    after the parameters becomes a function header: the name and the text
    of the parameters are copied as they are, and what follows the colon on
    the line is left out. *)
Theorem transpile_def_line ua code l ws name params tail :
  In l (split nl code) ->
  strip l = py "def " ++ ws ++ name ++ py "(" ++ params ++ py "):" ++ tail ->
  forallb isspace ws = true ->
  name <> [] -> forallb ascii_word name = true ->
  forallb not_rparen params = true ->
  exists js,
    transpile ua code = Returned js /\
    In (py "function " ++ name ++ py "(" ++ params ++ py ") {") (split nl js).
Proof.
  intros Hl Hs Hws Hne Hname Hparams.
  apply (transpile_has_line ua code l); [exact Hl|].
  rewrite Hs, (emitted_def ua ws name params tail Hws Hne Hname Hparams).
  now left.
Qed.

Lemma transpile_def_line_witness :
  In (py "def  area(w, h=2): return w * h")
     (split nl (py "def  area(w, h=2): return w * h")) /\
  strip (py "def  area(w, h=2): return w * h")
  = py "def " ++ py " " ++ py "area" ++ py "(" ++ py "w, h=2" ++ py "):"
    ++ py " return w * h" /\
  forallb isspace (py " ") = true /\
  py "area" <> [] /\
  forallb ascii_word (py "area") = true /\
  forallb not_rparen (py "w, h=2") = true /\
  forall ua, exists js,
    transpile ua (py "def  area(w, h=2): return w * h") = Returned js /\
    In (py "function " ++ py "area" ++ py "(" ++ py "w, h=2" ++ py ") {")
       (split nl js).
Proof.
  assert (H1 : In (py "def  area(w, h=2): return w * h")
                 (split nl (py "def  area(w, h=2): return w * h")))
    by now left.
  assert (H2 : strip (py "def  area(w, h=2): return w * h")
               = py "def " ++ py " " ++ py "area" ++ py "(" ++ py "w, h=2"
                 ++ py "):" ++ py " return w * h") by reflexivity.
  assert (H3 : forallb isspace (py " ") = true) by reflexivity.
  assert (H4 : py "area" <> []) by discriminate.
  assert (H5 : forallb ascii_word (py "area") = true) by reflexivity.
  assert (H6 : forallb not_rparen (py "w, h=2") = true) by reflexivity.
  repeat split; try assumption. intros ua.
  exact (transpile_def_line ua _ _ _ _ _ _ H1 H2 H3 H4 H5 H6).
Defined.

(** X10. A [def] line without a colon leaves no trace: the output is the
    one of the text without that line. *)
Theorem transpile_def_without_colon ua a l b :
  Forall no_newline l ->
  startswith (strip l) (py "def ") = true ->
  contains (py ":") (strip l) = false ->
  transpile ua (a ++ nl :: l ++ nl :: b) = transpile ua (a ++ nl :: b).
Proof.
  intros Hl Hd Hno. apply transpile_without_line; [exact Hl|].
  now apply emitted_def_without_colon.
Qed.

Lemma transpile_def_without_colon_witness :
  Forall no_newline (py "def broken(a, b)") /\
  startswith (strip (py "def broken(a, b)")) (py "def ") = true /\
  contains (py ":") (strip (py "def broken(a, b)")) = false /\
  forall ua,
    transpile ua
      (py "x = 1" ++ nl :: py "def broken(a, b)" ++ nl :: py "print(x)")
    = transpile ua (py "x = 1" ++ nl :: py "print(x)").
Proof.
  assert (H1 : Forall no_newline (py "def broken(a, b)")) by literal.
  assert (H2 : startswith (strip (py "def broken(a, b)")) (py "def ") = true)
    by reflexivity.
  assert (H3 : contains (py ":") (strip (py "def broken(a, b)")) = false)
    by reflexivity.
  split; [exact H1 | split; [exact H2 | split; [exact H3 |]]]. intros ua.
  exact (transpile_def_without_colon ua (py "x = 1") (py "def broken(a, b)")
           (py "print(x)") H1 H2 H3).
Defined.

(** X11. A line that starts with [if] with no space after it is copied with
    a semicolon after it: [if(x):] is no conditional, and an assignment to a
    name that starts with [if] gets no [let]. *)
Theorem transpile_if_glued_line ua code l rest :
  In l (split nl code) ->
  strip l = py "if" ++ rest ->
  startswith rest (py " ") = false ->
  exists js,
    transpile ua code = Returned js /\
    In (py "if" ++ rest ++ py ";") (split nl js).
Proof.
  intros Hl Hs Hrest. apply (transpile_has_line ua code l); [exact Hl|].
  rewrite Hs, (emitted_if_glued ua rest Hrest). now left.
Qed.

Lemma transpile_if_glued_line_witness :
  In (py "iffy = 1") (split nl (py "iffy = 1")) /\
  strip (py "iffy = 1") = py "if" ++ py "fy = 1" /\
  startswith (py "fy = 1") (py " ") = false /\
  forall ua, exists js,
    transpile ua (py "iffy = 1") = Returned js /\
    In (py "if" ++ py "fy = 1" ++ py ";") (split nl js).
Proof.
  assert (H1 : In (py "iffy = 1") (split nl (py "iffy = 1"))) by now left.
  assert (H2 : strip (py "iffy = 1") = py "if" ++ py "fy = 1") by reflexivity.
  assert (H3 : startswith (py "fy = 1") (py " ") = false) by reflexivity.
  repeat split; try assumption. intros ua.
  exact (transpile_if_glued_line ua _ _ _ H1 H2 H3).
Defined.

(** ** Recent files *)

Lemma str_eqb_eq a b : str_eqb a b = true <-> a = b.
Proof.
  revert b. induction a as [|x a IH]; intros [|y b]; simpl;
    try (split; [discriminate | discriminate || reflexivity]);
    try (split; reflexivity).
  rewrite andb_true_iff, N.eqb_eq, IH. split.
  - now intros [-> ->].
  - intros H. injection H as -> ->. now split.
Qed.

Lemma str_eqb_refl a : str_eqb a a = true.
Proof. now apply str_eqb_eq. Qed.

Lemma list_contains_false x l : list_contains x l = false -> ~ In x l.
Proof.
  unfold list_contains. induction l as [|y l IH]; simpl; [tauto|].
  intros H. apply orb_false_elim in H as [Hy Hl]. intros [-> | Hin].
  - now rewrite str_eqb_refl in Hy.
  - now apply IH.
Qed.

(** When [x] is in [l], [l.remove(x)] returns: the first [x] is gone and the
    rest stays in place. *)
Lemma list_remove_first x l :
  list_contains x l = true ->
  exists l1 l2,
    l = l1 ++ x :: l2 /\ ~ In x l1 /\ list_remove x l = Returned (l1 ++ l2).
Proof.
  unfold list_contains. induction l as [|y l IH]; simpl; [discriminate|].
  destruct (str_eqb y x) eqn:E.
  - intros _. apply str_eqb_eq in E. subst y. exists [], l. auto.
  - intros H. destruct (IH H) as (l1 & l2 & -> & Hnot & Hrem).
    exists (y :: l1), l2. rewrite Hrem. repeat split.
    intros [-> | Hin]; [|now apply Hnot].
    now rewrite str_eqb_refl in E.
Qed.

(** What [add_to_recent_files] leaves in the list: the file, then the old
    entries without the first occurrence of the file, cut to ten. *)
Lemma add_to_recent_files_shape recent_files filename :
  exists rest,
    add_to_recent_files recent_files filename
    = Returned (firstn max_recent_files (filename :: rest)) /\
    (forall g, In g rest -> In g recent_files) /\
    (forall g, In g recent_files -> g <> filename -> In g rest) /\
    (NoDup recent_files -> NoDup rest /\ ~ In filename rest) /\
    (List.length rest <= List.length recent_files)%nat.
Proof.
  unfold add_to_recent_files.
  assert (Hcut : forall l : list pystr,
             (if (max_recent_files <? List.length l)%nat
              then firstn max_recent_files l else l)
             = firstn max_recent_files l).
  { intros l. destruct (Nat.ltb_spec max_recent_files (List.length l));
      [reflexivity|]. symmetry. now apply firstn_all2. }
  destruct (list_contains filename recent_files) eqn:E.
  - apply list_remove_first in E as (l1 & l2 & -> & Hnot & ->).
    exists (l1 ++ l2). cbn [bind]. rewrite Hcut. split; [reflexivity|].
    repeat split.
    + intros g Hg. apply in_app_or in Hg as [Hg | Hg];
        apply in_or_app; [now left | right; now right].
    + intros g Hg Hne. apply in_app_or in Hg as [Hg | [Hg | Hg]];
        apply in_or_app; [now left | now subst | now right].
    + now apply NoDup_remove_1 in H.
    + now apply NoDup_remove_2 in H.
    + rewrite !length_app. cbn [List.length]. lia.
  - apply list_contains_false in E.
    exists recent_files. cbn [bind]. rewrite Hcut. split; [reflexivity|].
    repeat split; auto.
Qed.

(** X12. [add_to_recent_files] never raises; afterwards the file is the
    first entry and the list has at most ten entries, however long it was
    before. *)
Theorem recent_files_newest_first recent_files filename :
  exists updated,
    add_to_recent_files recent_files filename = Returned updated /\
    hd_error updated = Some filename /\
    (List.length updated <= max_recent_files)%nat.
Proof.
  destruct (add_to_recent_files_shape recent_files filename)
    as (rest & Hadd & _).
  eexists. split; [exact Hadd|]. split; [reflexivity|].
  apply firstn_le_length.
Qed.

(** X13. A list without a file listed twice stays so. *)
Theorem recent_files_no_duplicates recent_files filename :
  NoDup recent_files ->
  exists updated,
    add_to_recent_files recent_files filename = Returned updated /\
    NoDup updated.
Proof.
  intros Hnd.
  destruct (add_to_recent_files_shape recent_files filename)
    as (rest & Hadd & _ & _ & Hrest & _).
  destruct (Hrest Hnd) as [Hnd' Hnot].
  eexists. split; [exact Hadd|].
  change (firstn max_recent_files (filename :: rest))
    with (filename :: firstn 9 rest).
  constructor.
  - intros Hin. apply Hnot. revert Hin. generalize 9%nat.
    clear. induction rest as [|y rest IH]; intros [|n]; simpl; try tauto.
    intros [-> | Hin]; [now left | right; now apply (IH n)].
  - revert Hnd'. generalize 9%nat. clear.
    induction rest as [|y rest IH]; intros [|n] Hnd; simpl;
      try constructor.
    + inversion Hnd as [|? ? Hy Hr]; subst. intros Hin. apply Hy.
      revert Hin. clear. revert n.
      induction rest as [|z rest IH]; intros [|n]; simpl; try tauto.
      intros [-> | Hin]; [now left | right; now apply (IH n)].
    + inversion Hnd; subst. now apply IH.
Qed.

Lemma recent_files_no_duplicates_witness :
  NoDup [py "a.py"; py "b.py"; py "c.py"] /\
  exists updated,
    add_to_recent_files [py "a.py"; py "b.py"; py "c.py"] (py "b.py")
    = Returned updated /\
    NoDup updated.
Proof.
  assert (H : NoDup [py "a.py"; py "b.py"; py "c.py"]).
  { repeat constructor; simpl; intuition discriminate. }
  split; [exact H|].
  exact (recent_files_no_duplicates [py "a.py"; py "b.py"; py "c.py"]
           (py "b.py") H).
Defined.

(** X14. Adding the file that was added last changes nothing. *)
Theorem recent_files_idempotent recent_files filename :
  (updated <- add_to_recent_files recent_files filename ;;
   add_to_recent_files updated filename)
  = add_to_recent_files recent_files filename.
Proof.
  destruct (add_to_recent_files_shape recent_files filename)
    as (rest & Hadd & _).
  rewrite Hadd. cbn [bind].
  change (firstn max_recent_files (filename :: rest))
    with (filename :: firstn 9 rest).
  unfold add_to_recent_files, list_contains. cbn [existsb list_remove].
  rewrite str_eqb_refl. cbn [orb bind].
  pose proof (firstn_le_length 9 rest) as Hlen.
  destruct (Nat.ltb_spec max_recent_files
              (List.length (filename :: firstn 9 rest))) as [Hlt|_];
    [|reflexivity].
  cbn [List.length] in Hlt. unfold max_recent_files in Hlt. lia.
Qed.

(** X15. While the list has fewer than ten entries none is lost: the
    entries afterwards are the file and the entries before. *)
Theorem recent_files_keeps_entries recent_files filename :
  (List.length recent_files < max_recent_files)%nat ->
  exists updated,
    add_to_recent_files recent_files filename = Returned updated /\
    forall g, In g updated <-> g = filename \/ In g recent_files.
Proof.
  intros Hlen.
  destruct (add_to_recent_files_shape recent_files filename)
    as (rest & Hadd & Hsub & Hkeep & _ & Hle).
  eexists. split; [exact Hadd|].
  rewrite firstn_all2 by (cbn [List.length]; lia).
  intros g. simpl. split.
  - intros [<- | Hin]; [now left | right; now apply Hsub].
  - intros [-> | Hin]; [now left|].
    destruct (list_eq_dec N.eq_dec filename g) as [E | E]; [now left|].
    right. apply Hkeep; [exact Hin | congruence].
Qed.

Lemma recent_files_keeps_entries_witness :
  (List.length [py "a.py"; py "b.py"] < max_recent_files)%nat /\
  exists updated,
    add_to_recent_files [py "a.py"; py "b.py"] (py "b.py")
    = Returned updated /\
    forall g, In g updated <-> g = py "b.py" \/ In g [py "a.py"; py "b.py"].
Proof.
  assert (H : (List.length [py "a.py"; py "b.py"] < max_recent_files)%nat)
    by (unfold max_recent_files; simpl; lia).
  split; [exact H|].
  exact (recent_files_keeps_entries [py "a.py"; py "b.py"] (py "b.py") H).
Defined.

(** ** Zoom *)

Lemma zoom_step_in_range size c :
  (8 <= size <= 24)%Z -> (8 <= zoom size c <= 24)%Z.
Proof.
  intros H. destruct c; unfold zoom, zoom_in, zoom_out, reset_zoom.
  - destruct (Z.ltb_spec size 24); lia.
  - destruct (Z.gtb_spec size 8); lia.
  - lia.
Qed.

(** X16. From a font size between 8 and 24, no sequence of zooming in,
    zooming out and resetting leaves that range, and the message panel's
    font stays between 8 and 22. *)
Theorem zoom_keeps_range commands size :
  (8 <= size <= 24)%Z ->
  (8 <= fold_left zoom commands size <= 24)%Z /\
  (8 <= messages_font_size (fold_left zoom commands size) <= 22)%Z.
Proof.
  intros H.
  assert (Hfinal : (8 <= fold_left zoom commands size <= 24)%Z).
  { revert size H. induction commands as [|c commands IH]; intros size H.
    - exact H.
    - cbn [fold_left]. apply IH. now apply zoom_step_in_range. }
  split; [exact Hfinal|]. unfold messages_font_size. lia.
Qed.

Lemma zoom_keeps_range_witness :
  (8 <= 12 <= 24)%Z /\
  (8 <= fold_left zoom [ZoomOut; ZoomOut; ZoomOut; ZoomOut; ZoomOut; ZoomIn]
          12%Z <= 24)%Z /\
  (8 <= messages_font_size
          (fold_left zoom [ZoomOut; ZoomOut; ZoomOut; ZoomOut; ZoomOut; ZoomIn]
             12%Z) <= 22)%Z.
Proof.
  assert (H : (8 <= 12 <= 24)%Z) by lia.
  split; [exact H|].
  exact (zoom_keeps_range [ZoomOut; ZoomOut; ZoomOut; ZoomOut; ZoomOut; ZoomIn]
           12%Z H).
Defined.

(** X17. Below the upper bound zooming in and then out gives the size back,
    and so does zooming out and then in from the size above; at 24, zooming
    in does nothing, so zooming in and out ends one lower. *)
Theorem zoom_round_trip size :
  (8 <= size < 24)%Z ->
  zoom_out (zoom_in size) = size /\
  zoom_in (zoom_out (size + 1)) = (size + 1)%Z /\
  zoom_out (zoom_in 24) = 23%Z.
Proof.
  intros H. unfold zoom_in, zoom_out. repeat split.
  - destruct (Z.ltb_spec size 24); [|lia].
    destruct (Z.gtb_spec (size + 1) 8); lia.
  - destruct (Z.gtb_spec (size + 1) 8); [|lia].
    destruct (Z.ltb_spec (size + 1 - 1) 24); lia.
Qed.

Lemma zoom_round_trip_witness :
  (8 <= 8 < 24)%Z /\
  zoom_out (zoom_in 8) = 8%Z /\
  zoom_in (zoom_out (8 + 1)) = (8 + 1)%Z /\
  zoom_out (zoom_in 24) = 23%Z.
Proof.
  assert (H : (8 <= 8 < 24)%Z) by lia.
  split; [exact H|]. exact (zoom_round_trip 8%Z H).
Defined.

(** ** Statistics and line numbers *)

Lemma strip_clean word :
  forallb not_space word = true -> strip word = word.
Proof.
  assert (Hl : forall w, forallb not_space w = true -> lstrip w = w).
  { intros [|c w]; [reflexivity|]. simpl. unfold not_space at 1.
    destruct (isspace c); [discriminate | reflexivity]. }
  intros H. unfold strip, rstrip. rewrite (Hl word H).
  rewrite Hl; [apply rev_involutive|].
  apply forallb_forall. intros c Hc. apply in_rev in Hc.
  revert c Hc. now apply forallb_forall.
Qed.

(** The words of [s.split()] are not empty and hold no whitespace. *)
Lemma words_from_clean s :
  forall word,
    forallb not_space word = true ->
    Forall (fun w => w <> [] /\ forallb not_space w = true)
      (words_from word s).
Proof.
  induction s as [|c s IH]; intros word Hw; simpl.
  - destruct word; repeat constructor; [discriminate | exact Hw].
  - destruct (isspace c) eqn:Hc.
    + destruct word as [|x word]; [now apply IH|].
      constructor; [split; [discriminate | exact Hw] | now apply IH].
    + apply IH. rewrite forallb_app, Hw. simpl. unfold not_space.
      now rewrite Hc.
Qed.

(** X18. The test [if word.strip()] of [update_statistics] never drops a
    word: the number shown is the number of words [split()] finds. *)
Theorem word_count_counts_every_word content :
  word_count content = List.length (split_whitespace content).
Proof.
  unfold word_count, split_whitespace. f_equal.
  pose proof (words_from_clean content [] eq_refl) as H.
  induction H as [|w ws [Hne Hw] _ IH]; [reflexivity|].
  simpl. rewrite (strip_clean w Hw), IH.
  destruct w; [contradiction | reflexivity].
Qed.

Lemma uint_codes_no_newline d : Forall no_newline (uint_codes d).
Proof. induction d; simpl; constructor; (discriminate || assumption). Qed.

Lemma format_width3_no_newline i : Forall no_newline (format_width3 i).
Proof.
  unfold format_width3. apply Forall_app. split.
  - generalize (3 - List.length (decimal i))%nat as n.
    induction n; simpl; constructor; [discriminate | assumption].
  - apply uint_codes_no_newline.
Qed.

Lemma split_terminated_lines (lines : list pystr) :
  Forall (Forall no_newline) lines ->
  split nl (List.concat (map (fun l => l ++ [nl]) lines)) = lines ++ [[]].
Proof.
  induction 1 as [|l lines Hl _ IH]; [reflexivity|].
  cbn [map List.concat]. rewrite <- app_assoc. cbn [app].
  now rewrite split_app_sep, IH, (split_one_line nl l Hl).
Qed.

(** X19. The gutter has one line for each newline of the editor's text:
    its lines are the numbers from 1 on, each right-aligned in three
    columns, and an empty line after the last newline. *)
Theorem line_numbers_lines content :
  split nl (line_numbers_text content)
  = map format_width3 (seq 1 (count_char nl content)) ++ [[]].
Proof.
  unfold line_numbers_text.
  rewrite <- (map_map format_width3 (fun l => l ++ [nl])).
  apply split_terminated_lines.
  apply Forall_forall. intros l Hl. apply in_map_iff in Hl as (i & <- & _).
  apply format_width3_no_newline.
Qed.

(** ** The caller *)

Section Caller.
Variable ua : char -> bool.
Variable exception_text : exn -> pystr.

(** X20. With nothing but whitespace in the editor, [transpile_code] does
    not translate: it empties the JavaScript panel and the message panel,
    leaves the one message of [clear_output], and shows [Ready] and [No code
    to transpile]. *)
Theorem transpile_code_blank w timestamp (is_auto : bool) :
  strip (python_editor w) = [] ->
  transpile_code ua exception_text w timestamp is_auto
  = {| python_editor := python_editor w;
       js_editor := [];
       js_editor_state := DISABLED;
       messages_text :=
         [(py "[" ++ timestamp ++ py "] ", py "info");
          ([128465; 65039] ++ py " Output cleared" ++ [nl], py "info")];
       status_indicator := [9898] ++ py " Ready";
       transpile_status_label := py "No code to transpile" |}.
Proof.
  intros H. unfold transpile_code. rewrite H. reflexivity.
Qed.

(** X21. With anything else in the editor, [transpile_code] ends in
    [Success]: neither handler of the [try] runs.  The JavaScript panel
    holds what [transpile] returns for the stripped text, and the message
    added gives the number of its lines. *)
Theorem transpile_code_success w timestamp (is_auto : bool) :
  strip (python_editor w) <> [] ->
  exists js_code,
    transpile ua (strip (python_editor w)) = Returned js_code /\
    let mode := if is_auto then py "Auto-transpiled" else py "Transpiled" in
    transpile_code ua exception_text w timestamp is_auto
    = {| python_editor := python_editor w;
         js_editor := js_code;
         js_editor_state := DISABLED;
         messages_text :=
           messages_text w
           ++ [(py "[" ++ timestamp ++ py "] ", py "info");
               (([9989] ++ py " " ++ mode ++ py " successfully! Generated "
                 ++ decimal (List.length (split nl js_code))
                 ++ py " lines of JavaScript.") ++ [nl],
                py "success")];
         status_indicator := [128994] ++ py " Success";
         transpile_status_label := mode ++ py " successfully" |}.
Proof.
  intros Hne. unfold transpile_code.
  destruct (str_eqb (strip (python_editor w)) []) eqn:E.
  - apply str_eqb_eq in E. contradiction.
  - rewrite transpile_eq. eexists. split; reflexivity.
Qed.

End Caller.

Lemma transpile_code_blank_witness :
  strip ([32; nl]) = [] /\
  forall ua exception_text is_auto,
    transpile_code ua exception_text
      {| python_editor := [32; nl]; js_editor := py "old";
         js_editor_state := DISABLED; messages_text := [(py "m", py "info")];
         status_indicator := py "s"; transpile_status_label := py "t" |}
      (py "12:00:00") is_auto
    = {| python_editor := [32; nl];
         js_editor := [];
         js_editor_state := DISABLED;
         messages_text :=
           [(py "[" ++ py "12:00:00" ++ py "] ", py "info");
            ([128465; 65039] ++ py " Output cleared" ++ [nl], py "info")];
         status_indicator := [9898] ++ py " Ready";
         transpile_status_label := py "No code to transpile" |}.
Proof.
  assert (H : strip ([32; nl]) = []) by reflexivity.
  split; [exact H|]. intros ua exception_text is_auto.
  exact (transpile_code_blank ua exception_text
           {| python_editor := [32; nl]; js_editor := py "old";
              js_editor_state := DISABLED;
              messages_text := [(py "m", py "info")];
              status_indicator := py "s"; transpile_status_label := py "t" |}
           (py "12:00:00") is_auto H).
Defined.

Lemma transpile_code_success_witness :
  strip (py "x = 1" ++ [nl]) <> [] /\
  forall ua exception_text, exists js_code,
    transpile ua (strip (py "x = 1" ++ [nl])) = Returned js_code /\
    transpile_code ua exception_text
      {| python_editor := py "x = 1" ++ [nl]; js_editor := [];
         js_editor_state := DISABLED; messages_text := [];
         status_indicator := []; transpile_status_label := [] |}
      (py "12:00:00") false
    = {| python_editor := py "x = 1" ++ [nl];
         js_editor := js_code;
         js_editor_state := DISABLED;
         messages_text :=
           [] ++ [(py "[" ++ py "12:00:00" ++ py "] ", py "info");
               (([9989] ++ py " " ++ py "Transpiled"
                 ++ py " successfully! Generated "
                 ++ decimal (List.length (split nl js_code))
                 ++ py " lines of JavaScript.") ++ [nl],
                py "success")];
         status_indicator := [128994] ++ py " Success";
         transpile_status_label := py "Transpiled" ++ py " successfully" |}.
Proof.
  assert (H : strip (py "x = 1" ++ [nl]) <> []) by discriminate.
  split; [exact H|]. intros ua exception_text.
  exact (transpile_code_success ua exception_text
           {| python_editor := py "x = 1" ++ [nl]; js_editor := [];
              js_editor_state := DISABLED; messages_text := [];
              status_indicator := []; transpile_status_label := [] |}
           (py "12:00:00") false H).
Defined.

(** X22. [transpile] gives the same for a text and for the text stripped:
    the [strip] the caller does before the call changes no result. *)
Theorem transpile_of_stripped ua code :
  transpile ua (strip code) = transpile ua code.
Proof. rewrite !transpile_eq. now rewrite !body_of_strip. Qed.
